(** * azureml-examples: the create-compute CI workflow and two tutorial notebooks

    The repository holds a GitHub Actions workflow
    ([.github/workflows/cli-scripts-create-compute.yml]) and Jupyter
    notebooks that drive the Azure ML Python SDK.  The workflow is modelled
    as the record the YAML denotes together with the runner's rules for
    triggers and for step failure; a notebook is modelled as its list of
    cells, each code cell carrying both its source lines and its meaning as
    a program over a kernel state (namespace, working directory, default
    datastore, log of SDK calls). *)

From Stdlib Require Import String Ascii ZArith Lia.
From stdpp Require Import base option list gmap strings.

Local Open Scope string_scope.
Local Open Scope list_scope.

(** ** Text helpers *)

(** The double-quote character, for source lines that contain one. *)
Definition dq : string := String "034"%char EmptyString.

(** [contains sub s]: [sub] occurs in [s]. *)
Fixpoint contains (sub s : string) : bool :=
  String.prefix sub s ||
  match s with
  | EmptyString => false
  | String _ s' => contains sub s'
  end.

(** [lstrip s]: [s] without its leading blanks. *)
Fixpoint lstrip (s : string) : string :=
  match s with
  | String c s' => if Ascii.is_space c then lstrip s' else s
  | EmptyString => EmptyString
  end.

(** Decimal numerals, as they stand in a cron field. *)
Fixpoint digits_value (acc : nat) (s : string) : option nat :=
  match s with
  | EmptyString => Some acc
  | String c s' =>
      match Ascii.is_nat c with
      | Some d => digits_value (10 * acc + d) s'
      | None => None
      end
  end.

Definition parse_nat (s : string) : option nat :=
  match s with
  | EmptyString => None
  | _ => digits_value 0 s
  end.

(** [split_at c s]: the text before the first [c] and the text after it. *)
Fixpoint split_at (c : ascii) (s : string) : option (string * string) :=
  match s with
  | EmptyString => None
  | String a s' =>
      if Ascii.eqb a c then Some (EmptyString, s')
      else match split_at c s' with
           | Some (l, r) => Some (String a l, r)
           | None => None
           end
  end.

(** [ends_with c s]: the last character of [s] is [c]. *)
Fixpoint ends_with (c : ascii) (s : string) : bool :=
  match s with
  | EmptyString => false
  | String a EmptyString => Ascii.eqb a c
  | String _ s' => ends_with c s'
  end.



(** ** The workflow file *)

Module Workflow.

(** One entry of [jobs.<id>.steps]. *)
Record step := Step {
  name : string;
  uses : option string;
  with_ : list (string * string);
  run : option string;
  working_directory : option string;
  continue_on_error : bool
}.

Record job := Job {
  runs_on : string;
  steps : list step
}.

(** [on.pull_request]: an absent filter admits everything. *)
Record pull_request_filter := PullRequestFilter {
  branches : option (list string);
  paths : option (list string)
}.

Record triggers := Triggers {
  schedule : list string;                       (* the [cron] entries *)
  pull_request : option pull_request_filter
}.

Record workflow := WorkflowFile {
  wf_name : string;
  on : triggers;
  jobs : list (string * job)
}.

(** *** [cli-scripts-create-compute.yml], lines 1-32 *)

Definition check_out_repo : step :=
  {| name := "check out repo";
     uses := Some "actions/checkout@v2";
     with_ := [];
     run := None;
     working_directory := None;
     continue_on_error := false |}.

Definition azure_login : step :=
  {| name := "azure login";
     uses := Some "azure/login@v1";
     with_ := [("creds", "${{secrets.AZ_AE_CREDS}}")];
     run := None;
     working_directory := None;
     continue_on_error := false |}.

Definition install_ml_cli : step :=
  {| name := "install ml cli";
     uses := None;
     with_ := [];
     run := Some "az extension add -n ml -y";
     working_directory := None;
     continue_on_error := false |}.

Definition setup : step :=
  {| name := "setup";
     uses := None;
     with_ := [];
     run := Some "bash setup.sh";
     working_directory := Some "cli";
     continue_on_error := true |}.

Definition scripts_installs : step :=
  {| name := "scripts installs";
     uses := None;
     with_ := [];
     run := Some "sudo apt-get upgrade -y && sudo apt-get install uuid-runtime jq -y";
     working_directory := None;
     continue_on_error := false |}.

Definition test_script_script : step :=
  {| name := "test script script";
     uses := None;
     with_ := [];
     run := Some "set -e; bash -x create-compute.sh";
     working_directory := Some "cli";
     continue_on_error := false |}.

Definition build : job :=
  {| runs_on := "ubuntu-latest";
     steps := [check_out_repo; azure_login; install_ml_cli; setup;
               scripts_installs; test_script_script] |}.

Definition cli_scripts_create_compute : workflow :=
  {| wf_name := "cli-scripts-create-compute";
     on := {| schedule := ["0 0/4 * * *"];
              pull_request :=
                Some {| branches := Some ["main"; "cli-preview"];
                        paths := Some ["cli/create-compute.sh";
                                       ".github/workflows/cli-scripts-create-compute.yml"] |} |};
     jobs := [("build", build)] |}.

(** *** What a step does *)

Inductive action :=
| CheckOut            (* [uses: actions/checkout] *)
| AzureLogin          (* [uses: azure/login] *)
| InstallMlCli        (* [az extension add -n ml] *)
| RunBashScript       (* a [run] line that hands a script to [bash] *)
| OtherCommand.       (* any other [run] line *)

Definition action_of (s : step) : action :=
  match uses s, run s with
  | Some u, _ =>
      if String.prefix "actions/checkout@" u then CheckOut
      else if String.prefix "azure/login@" u then AzureLogin
      else OtherCommand
  | None, Some r =>
      if String.prefix "az extension add -n ml" r then InstallMlCli
      else if String.prefix "bash " r || contains " bash " r then RunBashScript
      else OtherCommand
  | None, None => OtherCommand
  end.

#[global] Instance action_eq_dec : EqDecision action.
Proof. solve_decision. Defined.

(** *** The runner: steps run in order; a failed step fails the job and
    skips the rest unless the step says [continue-on-error: true]. *)

Inductive outcome := Succeeded | Failed.
Inductive conclusion := Success | Failure.

(** [run_steps result ss]: the job's conclusion and the steps that were
    started, when [result s] is what running [s] yields. *)
Fixpoint run_steps (result : step -> outcome) (ss : list step)
  : conclusion * list step :=
  match ss with
  | [] => (Success, [])
  | s :: rest =>
      match result s with
      | Succeeded =>
          let '(c, started) := run_steps result rest in (c, s :: started)
      | Failed =>
          if continue_on_error s
          then let '(c, started) := run_steps result rest in (c, s :: started)
          else (Failure, [s])
      end
  end.

Definition run_job (result : step -> outcome) (j : job) : conclusion * list step :=
  run_steps result (steps j).


(** The outcome in which the named step fails and every other succeeds. *)
Definition fails_at (failing : string) (s : step) : outcome :=
  if String.eqb (name s) failing then Failed else Succeeded.

(** *** Triggers *)

(** A field of a cron line: [*], a number, or [start/step]. *)
Inductive cron_field :=
| Any
| Exactly (n : nat)
| Every (start every : nat).

Definition parse_field (s : string) : option cron_field :=
  if String.eqb s "*" then Some Any
  else match split_at "/"%char s with
       | Some (a, b) =>
           match (if String.eqb a "*" then Some 0 else parse_nat a), parse_nat b with
           | Some start, Some every => Some (Every start every)
           | _, _ => None
           end
       | None => Exactly <$> parse_nat s
       end.

Record cron := Cron {
  c_minute : cron_field;
  c_hour : cron_field;
  c_day_of_month : cron_field;
  c_month : cron_field;
  c_day_of_week : cron_field
}.

Definition parse_cron (line : string) : option cron :=
  match String.words line with
  | [mi; h; dom; mo; dow] =>
      match parse_field mi, parse_field h, parse_field dom,
            parse_field mo, parse_field dow with
      | Some a, Some b, Some c, Some d, Some e => Some (Cron a b c d e)
      | _, _, _, _, _ => None
      end
  | _ => None
  end.

Definition field_matches (f : cron_field) (v : nat) : bool :=
  match f with
  | Any => true
  | Exactly n => Nat.eqb v n
  | Every start every => Nat.leb start v && Nat.eqb ((v - start) mod every) 0
  end.

(** A minute of the wall clock (UTC). *)
Record instant := Instant {
  minute : nat;          (* 0..59 *)
  hour : nat;            (* 0..23 *)
  day_of_month : nat;    (* 1..31 *)
  month : nat;           (* 1..12 *)
  day_of_week : nat      (* 0..6 *)
}.

Definition cron_fires (c : cron) (t : instant) : bool :=
  field_matches (c_minute c) (minute t) &&
  field_matches (c_hour c) (hour t) &&
  field_matches (c_day_of_month c) (day_of_month t) &&
  field_matches (c_month c) (month t) &&
  field_matches (c_day_of_week c) (day_of_week t).

Definition line_fires (line : string) (t : instant) : bool :=
  match parse_cron line with
  | Some c => cron_fires c t
  | None => false
  end.

(** What can happen to the repository. *)
Inductive event :=
| Tick (t : instant)                                  (* the clock reaches [t] *)
| PullRequest (base : string) (changed : list string) (* opened or updated *)
| Push (branch : string) (changed : list string)
| Manual.

Section Filters.

(** Filter patterns with glob characters are matched by the runner's glob
    matcher, which the workflow does not depend on: it stays abstract. *)
Variable glob : string -> string -> bool.

Definition is_glob_char (c : ascii) : bool :=
  match c with
  | "*" | "?" | "+" | "[" | "]" | "!" => true
  | _ => false
  end%char.

Fixpoint literal (p : string) : bool :=
  match p with
  | EmptyString => true
  | String c p' => negb (is_glob_char c) && literal p'
  end.

Definition pattern_matches (p s : string) : bool :=
  if literal p then String.eqb p s else glob p s.

Definition filter_admits (f : option (list string)) (s : string) : bool :=
  match f with
  | None => true
  | Some ps => existsb (fun p => pattern_matches p s) ps
  end.

(** A pull request passes when its base branch passes [branches] and one
    of its changed files passes [paths]. *)
Definition pull_request_admitted (f : pull_request_filter)
    (base : string) (changed : list string) : bool :=
  filter_admits (branches f) base &&
  match paths f with
  | None => true
  | Some _ => existsb (filter_admits (paths f)) changed
  end.

Definition triggered (w : workflow) (e : event) : bool :=
  match e with
  | Tick t => existsb (fun line => line_fires line t) (schedule (on w))
  | PullRequest base changed =>
      match pull_request (on w) with
      | Some f => pull_request_admitted f base changed
      | None => false
      end
  | Push _ _ => false
  | Manual => false
  end.

(** The jobs an event sets off: the workflow has no condition on its
    jobs, so every job runs on every event that triggers it. *)
Definition dispatch (w : workflow) (e : event) : list job :=
  if triggered w e then map snd (jobs w) else [].

End Filters.

End Workflow.

(** ** The notebook kernel and the SDK it talks to

    The Azure ML SDK, torchvision and the Python standard library are not
    part of the repository.  Each call a notebook makes is modelled by the
    effect the notebook's own text relies on; the remote service may make
    any call raise. *)

Module Kernel.

(** File contents and blob contents. *)
Abbreviation content := (list Byte.byte).

#[global] Instance byte_eq_dec : EqDecision Byte.byte := Byte.byte_eq_dec.

(** What an SDK object is. *)
Inductive kind :=
| KWorkspace | KDatastore | KDataReference | KDataset | KDatasetConsumption
| KEnvironment | KScriptRunConfig | KExperiment | KRun | KRunDetails
| KTensorboard | KNothing.

#[global] Instance kind_eq_dec : EqDecision kind.
Proof. solve_decision. Defined.

(** A handle to an SDK object: its kind, and the position in the call log
    of the call that returned it. *)
Record handle := Handle { h_kind : kind; h_id : nat }.

#[global] Instance handle_eq_dec : EqDecision handle.
Proof. solve_decision. Defined.

(** An element of [ScriptRunConfig(arguments=[...])].  A float literal is
    kept as written: [ADec d s] stands for [d * 10^-s]. *)
Inductive argument :=
| AStr (s : string)
| AInt (n : Z)
| ADec (digits : Z) (scale : nat)
| AHandle (h : handle).

(** The calls into the SDK that the notebooks make, with their arguments. *)
Module Call.
Inductive t :=
| Workspace_from_config
| get_default_datastore (ws : handle)
| upload (ds : handle) (src_dir target_path : string) (overwrite : bool)
| Dataset_File_from_files (datastore : handle) (path : string)
| as_mount (dataset : handle)
| Environment_from_conda_specification (name file_path : string)
| docker_enabled (env : handle) (b : bool)
| docker_base_image (env : handle) (image : string)
| ScriptRunConfig (source_directory script : string)
    (arguments : list argument) (compute_target : string) (environment : handle)
| Experiment (workspace : handle) (name : string)
| submit (experiment : handle) (config : handle)
| RunDetails (run : handle)
| show (widget : handle)
| wait_for_completion (run : handle) (show_output : bool)
| Tensorboard (runs : list handle)
| start (tb : handle)
| stop (tb : handle).
End Call.

(** The kind of object a call returns. *)
Definition returns (c : Call.t) : kind :=
  match c with
  | Call.Workspace_from_config => KWorkspace
  | Call.get_default_datastore _ => KDatastore
  | Call.upload _ _ _ _ => KDataReference
  | Call.Dataset_File_from_files _ _ => KDataset
  | Call.as_mount _ => KDatasetConsumption
  | Call.Environment_from_conda_specification _ _ => KEnvironment
  | Call.docker_enabled _ _ => KNothing
  | Call.docker_base_image _ _ => KNothing
  | Call.ScriptRunConfig _ _ _ _ _ => KScriptRunConfig
  | Call.Experiment _ _ => KExperiment
  | Call.submit _ _ => KRun
  | Call.RunDetails _ => KRunDetails
  | Call.show _ => KNothing
  | Call.wait_for_completion _ _ => KNothing
  | Call.Tensorboard _ => KTensorboard
  | Call.start _ => KNothing
  | Call.stop _ => KNothing
  end.

Definition argument_handles (a : argument) : list (handle * kind) :=
  match a with
  | AHandle h => [(h, KDatasetConsumption)]
  | _ => []
  end.

(** The handles a call consumes, each with the kind the SDK expects. *)
Definition consumes (c : Call.t) : list (handle * kind) :=
  match c with
  | Call.Workspace_from_config => []
  | Call.get_default_datastore ws => [(ws, KWorkspace)]
  | Call.upload ds _ _ _ => [(ds, KDatastore)]
  | Call.Dataset_File_from_files ds _ => [(ds, KDatastore)]
  | Call.as_mount d => [(d, KDataset)]
  | Call.Environment_from_conda_specification _ _ => []
  | Call.docker_enabled env _ => [(env, KEnvironment)]
  | Call.docker_base_image env _ => [(env, KEnvironment)]
  | Call.ScriptRunConfig _ _ args _ env =>
      flat_map argument_handles args ++ [(env, KEnvironment)]
  | Call.Experiment ws _ => [(ws, KWorkspace)]
  | Call.submit e src => [(e, KExperiment); (src, KScriptRunConfig)]
  | Call.RunDetails r => [(r, KRun)]
  | Call.show wd => [(wd, KRunDetails)]
  | Call.wait_for_completion r _ => [(r, KRun)]
  | Call.Tensorboard rs => map (fun r => (r, KRun)) rs
  | Call.start tb => [(tb, KTensorboard)]
  | Call.stop tb => [(tb, KTensorboard)]
  end.

(** Python exceptions that can reach the notebook. *)
Inductive exn :=
| NameError (name : string)
| TypeError (name : string)
| FileNotFoundError (path : string)
| IsADirectoryError (path : string)
| NotADirectoryError (path : string)
| RuntimeError (message : string)
| URLError (reason : string)         (* the download did not get through *)
| UserErrorException (message : string)  (* the SDK refuses an argument *)
| ServiceError (message : string).   (* raised from inside an SDK call *)

(** A value bound to a name of the kernel's namespace. *)
Inductive value :=
| VStr (s : string)
| VHandle (h : handle)
| VImported (module name : string).   (* a module, class or function *)

(** An entry of the working directory: a file, or a directory with the
    files below it by relative path. *)
Inductive node :=
| File (data : content)
| Dir (entries : gmap string content).

(** What the kernel does not control: for the [i]-th SDK call, whether the
    service makes it raise; whether fetching the CIFAR10 archive fails; and
    the archive with the files it unpacks to.  The integrity check of
    torchvision reads the training and test batches of the unpacked
    directory; they are taken here to be all the files of the archive. *)
Record outside := Outside {
  service : nat -> option string;
  download : option string;
  cifar_archive : content;
  cifar_batches : gmap string content
}.

Record world := World {
  surroundings : outside;
  namespace : gmap string value;     (* names bound by earlier cells *)
  cwd : gmap string node;            (* the notebook's working directory *)
  blobs : gmap string content;       (* the workspace's default datastore *)
  calls : list Call.t;               (* SDK calls made so far, oldest first *)
  shell_history : list string;       (* [!] lines run so far *)
  imported : list string;            (* modules imported so far *)
  tensorboards : list nat            (* TensorBoard instances now running *)
}.

Definition set_namespace (f : gmap string value -> gmap string value) (w : world) : world :=
  World (surroundings w) (f (namespace w)) (cwd w) (blobs w) (calls w)
        (shell_history w) (imported w) (tensorboards w).
Definition set_cwd (f : gmap string node -> gmap string node) (w : world) : world :=
  World (surroundings w) (namespace w) (f (cwd w)) (blobs w) (calls w)
        (shell_history w) (imported w) (tensorboards w).
Definition set_blobs (f : gmap string content -> gmap string content) (w : world) : world :=
  World (surroundings w) (namespace w) (cwd w) (f (blobs w)) (calls w)
        (shell_history w) (imported w) (tensorboards w).
Definition log_call (c : Call.t) (w : world) : world :=
  World (surroundings w) (namespace w) (cwd w) (blobs w) (calls w ++ [c])
        (shell_history w) (imported w) (tensorboards w).
Definition log_shell (cmd : string) (w : world) : world :=
  World (surroundings w) (namespace w) (cwd w) (blobs w) (calls w)
        (shell_history w ++ [cmd]) (imported w) (tensorboards w).
Definition log_import (m : string) (w : world) : world :=
  World (surroundings w) (namespace w) (cwd w) (blobs w) (calls w)
        (shell_history w) (imported w ++ [m]) (tensorboards w).
Definition set_tensorboards (f : list nat -> list nat) (w : world) : world :=
  World (surroundings w) (namespace w) (cwd w) (blobs w) (calls w)
        (shell_history w) (imported w) (f (tensorboards w)).

(** Surroundings in which the service answers every call and the archive
    can be fetched. *)
Definition quiet (archive : content) (batches : gmap string content) : outside :=
  Outside (fun _ => None) None archive batches.

(** A service that lets two calls through and refuses the third. *)
Definition refuses_upload : outside :=
  Outside (fun i => if Nat.eqb i 2 then Some "upload failed" else None) None [] ∅.

(** A kernel started in a working directory, against a datastore. *)
Definition fresh (o : outside) (files : gmap string node)
    (store : gmap string content) : world :=
  World o ∅ files store [] [] [] [].

(** *** Statements: a state transformer that may raise *)

Inductive result (A : Type) :=
| Ok (a : A) (w : world)
| Raise (e : exn) (w : world).
Arguments Ok {A} a w.
Arguments Raise {A} e w.

Definition M (A : Type) : Type := world -> result A.

#[global] Instance M_ret : MRet M := fun A a w => Ok a w.
#[global] Instance M_bind : MBind M := fun A B f m w =>
  match m w with
  | Ok a w' => f a w'
  | Raise e w' => Raise e w'
  end.

Definition raise {A} (e : exn) : M A := fun w => Raise e w.

(** The world a statement leaves behind, raised or not. *)
Definition world_of {A} (r : result A) : world :=
  match r with
  | Ok _ w => w
  | Raise _ w => w
  end.

Definition raised {A} (r : result A) : option exn :=
  match r with
  | Ok _ _ => None
  | Raise e _ => Some e
  end.

(** *** Names *)

(** Reading a name: [NameError] when no cell has bound it. *)
Definition get_name (x : string) : M value := fun w =>
  match namespace w !! x with
  | Some v => Ok v w
  | None => Raise (NameError x) w
  end.

(** [x = v] *)
Definition assign (x : string) (v : value) : M unit := fun w =>
  Ok tt (set_namespace <[x := v]> w).

Definition get_handle (x : string) : M handle :=
  v ← get_name x;
  match v with
  | VHandle h => mret h
  | VStr _ | VImported _ _ => raise (TypeError x)
  end.

Definition get_str (x : string) : M string :=
  v ← get_name x;
  match v with
  | VStr s => mret s
  | VHandle _ | VImported _ _ => raise (TypeError x)
  end.

(** [x = e] for an expression [e] that yields an SDK object *)
Definition assign_handle (x : string) (e : M handle) : M unit :=
  h ← e; assign x (VHandle h).

(** An expression statement: the value is dropped (or shown, when it ends
    a cell). *)
Definition discard {A} (e : M A) : M unit := e ;; mret tt.

(** [from m import n1, n2, ...] binds [n1], [n2], ...; [import m] binds
    [m].  The modules the notebooks import are taken to be installed. *)
Definition import (m : string) (names : list string) : M unit := fun w =>
  Ok tt (set_namespace
           (fun ns => fold_left (fun ns n => <[n := VImported m n]> ns) names ns)
           (log_import m w)).

(** [!cmd]: IPython runs the line in a subshell and waits for it; its exit
    status raises nothing. *)
Definition shell (cmd : string) : M unit := fun w => Ok tt (log_shell cmd w).

(** *** SDK calls *)

(** A call is logged, then either raises what the service answers or
    returns a handle to its result and leaves its effect. *)
Definition invoke (c : Call.t) (effect : world -> world) : M handle := fun w =>
  let i := length (calls w) in
  let w' := log_call c w in
  match service (surroundings w) i with
  | Some msg => Raise (ServiceError msg) w'
  | None => Ok (Handle (returns c) i) (effect w')
  end.

Definition Workspace_from_config : M handle :=
  invoke Call.Workspace_from_config id.

Definition get_default_datastore (ws : handle) : M handle :=
  invoke (Call.get_default_datastore ws) id.

(** [os.path.join(a, b)] on [/]-separated paths. *)
Definition os_path_join (a b : string) : string :=
  if String.prefix "/" b then b
  else if String.eqb a "" then b
  else if ends_with "/" a then a +:+ b
  else a +:+ "/" +:+ b.

(** The blob a file of the uploaded directory goes to. *)
Definition blob_name (target_path rel : string) : string :=
  os_path_join target_path rel.

(** [overwrite=True] replaces a blob that is already there;
    [overwrite=False] leaves it. *)
Definition store_blobs (target_path : string) (files : gmap string content)
    (overwrite : bool) (store : gmap string content) : gmap string content :=
  let new := kmap (blob_name target_path) files in
  if overwrite then new ∪ store else store ∪ new.

(** [ds.upload(src_dir=..., target_path=..., overwrite=...)]: the call
    itself raises when [src_dir] is no directory. *)
Definition upload (ds : handle) (src_dir target_path : string)
    (overwrite : bool) : M handle := fun w =>
  let c := Call.upload ds src_dir target_path overwrite in
  match cwd w !! src_dir with
  | Some (Dir files) =>
      invoke c (set_blobs (store_blobs target_path files overwrite)) w
  | _ =>
      (invoke c id ≫= fun _ =>
         raise (UserErrorException "src_dir must be an existing directory")) w
  end.

(** [Dataset.File.from_files((datastore, path))] *)
Definition Dataset_File_from_files (datastore : handle) (path : string) : M handle :=
  invoke (Call.Dataset_File_from_files datastore path) id.

Definition as_mount (dataset : handle) : M handle :=
  invoke (Call.as_mount dataset) id.

Definition Environment_from_conda_specification (name file_path : string) : M handle :=
  invoke (Call.Environment_from_conda_specification name file_path) id.

(** [env.docker.enabled = b] and [env.docker.base_image = image] *)
Definition docker_enabled (env : handle) (b : bool) : M unit :=
  invoke (Call.docker_enabled env b) id ;; mret tt.
Definition docker_base_image (env : handle) (image : string) : M unit :=
  invoke (Call.docker_base_image env image) id ;; mret tt.

Definition ScriptRunConfig (source_directory script : string)
    (arguments : list argument) (compute_target : string)
    (environment : handle) : M handle :=
  invoke (Call.ScriptRunConfig source_directory script arguments
            compute_target environment) id.

Definition Experiment (workspace : handle) (name : string) : M handle :=
  invoke (Call.Experiment workspace name) id.

Definition submit (experiment config : handle) : M handle :=
  invoke (Call.submit experiment config) id.

Definition RunDetails (run : handle) : M handle :=
  invoke (Call.RunDetails run) id.

Definition show (widget : handle) : M unit :=
  invoke (Call.show widget) id ;; mret tt.

Definition wait_for_completion (run : handle) (show_output : bool) : M unit :=
  invoke (Call.wait_for_completion run show_output) id ;; mret tt.

Definition Tensorboard (runs : list handle) : M handle :=
  invoke (Call.Tensorboard runs) id.

(** [tb.start()] launches a TensorBoard server on the local machine and
    returns; the server keeps running until [tb.stop()]. *)
Definition start (tb : handle) : M unit :=
  invoke (Call.start tb) (set_tensorboards (fun l => l ++ [h_id tb])) ;; mret tt.

Definition stop (tb : handle) : M unit :=
  invoke (Call.stop tb)
         (set_tensorboards (filter (fun i => i ≠ h_id tb))) ;; mret tt.

(** *** Local calls *)

(** [os.path.join(root, name)], with the working directory written [.] *)
Definition join (root name : string) : string :=
  if String.eqb root "." then name else root +:+ "/" +:+ name.

(** torchvision's integrity check: the directory of batches is there and
    holds every batch file with the contents the archive has for it. *)
Definition intact (o : outside) (fs : gmap string node) (root : string) : bool :=
  match fs !! join root "cifar-10-batches-py" with
  | Some (Dir entries) =>
      bool_decide (map_Forall (fun rel data => entries !! rel = Some data)
                              (cifar_batches o))
  | _ => false
  end.

(** Fetching the archive to [path]: [URLError] when the download does not
    get through, else the file is written. *)
Definition urlretrieve (path : string) : M unit := fun w =>
  match download (surroundings w) with
  | Some reason => Raise (URLError reason) w
  | None =>
      match cwd w !! path with
      | Some (Dir _) => Raise (IsADirectoryError path) w
      | _ => Ok tt (set_cwd <[path := File (cifar_archive (surroundings w))]> w)
      end
  end.

(** [download_url]: an archive already at [path] with the right contents
    is used as it is. *)
Definition download_url (path : string) : M unit := fun w =>
  match cwd w !! path with
  | Some (File data) =>
      if bool_decide (data = cifar_archive (surroundings w)) then Ok tt w
      else urlretrieve path w
  | _ => urlretrieve path w
  end.

(** [extract_archive]: the files of the archive are written into the
    directory [dir], beside what is already in it; a file of that name
    makes the extraction fail. *)
Definition extract_archive (dir : string) : M unit := fun w =>
  match cwd w !! dir with
  | Some (File _) => Raise (NotADirectoryError dir) w
  | Some (Dir entries) =>
      Ok tt (set_cwd <[dir := Dir (cifar_batches (surroundings w) ∪ entries)]> w)
  | None =>
      Ok tt (set_cwd <[dir := Dir (cifar_batches (surroundings w))]> w)
  end.

(** [datasets.CIFAR10(root, download=...)]: with [download=True] nothing is
    fetched when the directory of batches is intact ("Files already
    downloaded and verified"); else the archive is fetched into [root] and
    unpacked there.  Without [download] a directory that is not intact
    raises [RuntimeError]. *)
Definition datasets_CIFAR10 (root : string) (download : bool) : M unit := fun w =>
  if intact (surroundings w) (cwd w) root then Ok tt w
  else if download then
    (download_url (join root "cifar-10-python.tar.gz") ;;
     extract_archive (join root "cifar-10-batches-py")) w
  else Raise (RuntimeError "Dataset not found or corrupted.") w.

(** [os.remove(path)] *)
Definition os_remove (path : string) : M unit := fun w =>
  match cwd w !! path with
  | Some (File _) => Ok tt (set_cwd (delete path) w)
  | Some (Dir _) => Raise (IsADirectoryError path) w
  | None => Raise (FileNotFoundError path) w
  end.

(** [shutil.rmtree(path)] *)
Definition shutil_rmtree (path : string) : M unit := fun w =>
  match cwd w !! path with
  | Some (Dir _) => Ok tt (set_cwd (delete path) w)
  | Some (File _) => Raise (NotADirectoryError path) w
  | None => Raise (FileNotFoundError path) w
  end.

End Kernel.

(** ** Notebooks *)

Module Notebook.
Import Kernel.

(** A cell of an [.ipynb] file: its [source] lines (without the newline
    that ends each), and for a code cell what running it does. *)
Inductive cell :=
| Markdown (source : list string)
| Code (source : list string) (body : M unit).

Record notebook := NotebookFile {
  origin : string;
  cells : list cell
}.

(** Running cells top to bottom; the first exception stops the run. *)
Fixpoint run_cells (cs : list cell) : M unit :=
  match cs with
  | [] => mret tt
  | Markdown _ :: rest => run_cells rest
  | Code _ body :: rest => body ;; run_cells rest
  end.

Definition run (nb : notebook) : M unit := run_cells (cells nb).

(** The SDK calls of a run in which nothing raises. *)
Definition script (nb : notebook) : list Call.t :=
  calls (world_of (run nb (fresh (quiet [] ∅) ∅ ∅))).

Definition code_lines (nb : notebook) : list string :=
  flat_map (fun c => match c with
                     | Code src _ => src
                     | Markdown _ => []
                     end) (cells nb).

Definition markdown_lines (nb : notebook) : list string :=
  flat_map (fun c => match c with
                     | Markdown src => src
                     | Code _ _ => []
                     end) (cells nb).

(** *** Reading a line of Python *)

Definition is_word_char (c : ascii) : bool :=
  let n := nat_of_ascii c in
  (Nat.leb 97 n && Nat.leb n 122) || (Nat.leb 65 n && Nat.leb n 90) ||
  (Nat.leb 48 n && Nat.leb n 57) || Nat.eqb n 95.

Fixpoint leading_word (s : string) : string :=
  match s with
  | String c s' => if is_word_char c then String c (leading_word s') else EmptyString
  | EmptyString => EmptyString
  end.

(** The word a statement line opens with. *)
Definition keyword (line : string) : string := leading_word (lstrip line).

Definition is_comment (line : string) : bool := String.prefix "#" (lstrip line).


Definition one_of (words : list string) (w : string) : bool :=
  existsb (String.eqb w) words.

(** A line that chooses between paths or repeats one: a compound statement,
    a conditional expression, a comprehension or a short-circuit operator. *)
Definition branches (line : string) : bool :=
  negb (is_comment line) &&
  (one_of ["if"; "elif"; "else"; "for"; "while"; "match"] (keyword line) ||
   existsb (fun w => contains w line) [" if "; " else "; " for "; " and "; " or "]).

(** A line that intercepts an exception or raises one of its own. *)
Definition handles_errors (line : string) : bool :=
  negb (is_comment line) &&
  one_of ["try"; "except"; "finally"; "with"; "raise"; "assert"] (keyword line).



(** No code line of a notebook branches, loops, or handles or raises an
    exception of its own. *)
Definition straight_line (nb : notebook) : bool :=
  forallb (fun line => negb (branches line) && negb (handles_errors line))
          (code_lines nb).

End Notebook.

(** ** The stages of a training notebook *)

Module Pipeline.
Import Kernel.

Inductive stage :=
| BuildWorkspace       (* a workspace handle *)
| DefineEnvironment    (* the conda and Docker environment *)
| ProvideDataset       (* upload or reference data *)
| ConfigureRun         (* the run configuration *)
| SubmitJob
| PollJob
| Visualize.           (* a client that shows the run's logs *)

#[global] Instance stage_eq_dec : EqDecision stage.
Proof. solve_decision. Defined.

Definition stage_of (c : Call.t) : stage :=
  match c with
  | Call.Workspace_from_config => BuildWorkspace
  | Call.get_default_datastore _ => ProvideDataset
  | Call.upload _ _ _ _ => ProvideDataset
  | Call.Dataset_File_from_files _ _ => ProvideDataset
  | Call.as_mount _ => ProvideDataset
  | Call.Environment_from_conda_specification _ _ => DefineEnvironment
  | Call.docker_enabled _ _ => DefineEnvironment
  | Call.docker_base_image _ _ => DefineEnvironment
  | Call.ScriptRunConfig _ _ _ _ _ => ConfigureRun
  | Call.Experiment _ _ => SubmitJob
  | Call.submit _ _ => SubmitJob
  | Call.RunDetails _ => Visualize
  | Call.show _ => Visualize
  | Call.wait_for_completion _ _ => PollJob
  | Call.Tensorboard _ => Visualize
  | Call.start _ => Visualize
  | Call.stop _ => Visualize
  end.

Definition stages (log : list Call.t) : list stage := map stage_of log.

(** The position of a stage in the order workspace, environment, dataset,
    run configuration, submit, poll, visualization. *)
Definition rank (s : stage) : nat :=
  match s with
  | BuildWorkspace => 0
  | DefineEnvironment => 1
  | ProvideDataset => 2
  | ConfigureRun => 3
  | SubmitJob => 4
  | PollJob => 5
  | Visualize => 6
  end.

(** No call of a later stage is followed by a call of an earlier one. *)
Fixpoint in_rank_order (l : list stage) : bool :=
  match l with
  | [] => true
  | s :: rest => forallb (fun s' => Nat.leb (rank s) (rank s')) rest && in_rank_order rest
  end.

Definition occurs (s : stage) (l : list stage) : bool :=
  existsb (fun s' => bool_decide (s' = s)) l.

(** Every call of stage [a] comes before every call of stage [b]. *)
Fixpoint precedes (a b : stage) (l : list stage) : bool :=
  match l with
  | [] => true
  | s :: rest =>
      (if bool_decide (s = b) then negb (occurs a rest) else true) && precedes a b rest
  end.

(** The order the notebooks keep: the workspace handle first; environment
    and dataset before the run configuration; the run configuration before
    the submission; the submission before polling and visualization. *)
Definition in_dependency_order (l : list stage) : bool :=
  match l with
  | BuildWorkspace :: rest => negb (occurs BuildWorkspace rest)
  | _ => false
  end &&
  precedes DefineEnvironment ConfigureRun l &&
  precedes ProvideDataset ConfigureRun l &&
  precedes ConfigureRun SubmitJob l &&
  precedes SubmitJob PollJob l &&
  precedes SubmitJob Visualize l.

(** Each handle a call consumes is the result of an earlier call of the log
    and has the kind the call expects. *)
Definition produced_before (log : list Call.t) (i : nat) (hk : handle * kind) : bool :=
  let '(h, k) := hk in
  bool_decide (h_kind h = k) &&
  Nat.ltb (h_id h) i &&
  match log !! h_id h with
  | Some c => bool_decide (returns c = k)
  | None => false
  end.

Definition handles_flow (log : list Call.t) : bool :=
  forallb (fun '(i, c) => forallb (produced_before log i) (consumes c))
          (imap pair log).






End Pipeline.

(** ** [python-sdk/tutorials/an-introduction/3.pytorch-model-cloud-data.ipynb] *)

Module CloudData.
Import Kernel Notebook.

(** *** Source lines *)

(** Cell 0 (markdown). *)
Definition source_0 : list string :=
  ["# Tutorial: Bring your own data (Part 3 of 3)";
   "";
   "## Introduction";
   "";
   "In the previous [Tutorial: Train a model in the cloud](2.pytorch-model.ipynb) article, the CIFAR10 data was downloaded using the builtin `torchvision.datasets.CIFAR10` method in the PyTorch API. However, in many cases you are going to want to use your own data in a remote training run. This article focuses on the workflow you can leverage such that you can work with your own data in Azure Machine Learning. ";
   "";
   "By the end of this tutorial you would have a better understanding of:";
   "";
   "- How to upload your data to Azure";
   "- Best practices for working with cloud data in Azure Machine Learning";
   "- Working with command-line arguments";
   "";
   "---";
   "";
   "## Your machine learning code";
   "";
   "By now you have your training script running in Azure Machine Learning, and can monitor the model performance. Let's _parametrize_ the training script by introducing";
   "arguments. Using arguments will allow you to easily compare different hyperparmeters.";
   "";
   "Presently our training script is set to download the CIFAR10 dataset on each run. The python code in [train-with-cloud-data-and-logging.py](src/train-with-cloud-data-and-logging.py) now uses **`argparse` to parametize the script.**"].

(** Cell 1 (markdown). *)
Definition source_1 : list string :=
  ["### Understanding your machine learning code changes";
   "";
   "The script `train-with-cloud-data-and-logging.py` has leveraged the `argparse` library to set up the `--data-path`, `--learning-rate`, `--momentum`, and `--epochs` arguments:";
   "";
   "```python";
   "import argparse";
   "...";
   "parser = argparse.ArgumentParser()";
   "parser.add_argument(" +:+ dq +:+ "--data-path" +:+ dq +:+ ", type=str, help=" +:+ dq +:+ "Path to the training data" +:+ dq +:+ ")";
   "parser.add_argument(" +:+ dq +:+ "--learning-rate" +:+ dq +:+ ", type=float, default=0.001, help=" +:+ dq +:+ "Learning rate for SGD" +:+ dq +:+ ")";
   "parser.add_argument(" +:+ dq +:+ "--momentum" +:+ dq +:+ ", type=float, default=0.9, help=" +:+ dq +:+ "Momentum for SGD" +:+ dq +:+ ")";
   "parser.add_argument(" +:+ dq +:+ "--epochs" +:+ dq +:+ ", type=int, default=2, help=" +:+ dq +:+ "Number of epochs to train" +:+ dq +:+ ")";
   "args = parser.parse_args()";
   "```";
   "";
   "The script was adapted to update the optimizer to use the user-defined parameters:";
   "";
   "```python";
   "optimizer = optim.SGD(";
   "    net.parameters(),";
   "    lr=args.learning_rate,     # get learning rate from command-line argument";
   "    momentum=args.momentum,    # get momentum from command-line argument";
   ")";
   "```";
   "";
   "Similarly the training loop was adapted to update the number of epochs to train to use the user-defined parameters:";
   "```python";
   "for epoch in range(args.epochs):";
   "```"].

(** Cell 2 (markdown). *)
Definition source_2 : list string :=
  ["## Upload your data to Azure";
   "";
   "In order to run this script in Azure Machine Learning, you need to make your training data available in Azure. Your Azure Machine Learning workspace comes equipped with a _default_ **Datastore** - an Azure Blob storage account - that you can use to store your training data.";
   "";
   "> <span style=" +:+ dq +:+ "color:purple; font-weight:bold" +:+ dq +:+ ">! NOTE <br>";
   "> Azure Machine Learning allows you to connect other cloud-based datastores that store your data. For more details, see [datastores documentation](./concept-data.md).</span>"].

(** Cell 3 (code). *)
Definition source_3 : list string :=
  ["!pip install --upgrade torchvision"].

(** Cell 4 (code). *)
Definition source_4 : list string :=
  ["from azureml.core import Workspace, Dataset";
   "from torchvision import datasets";
   "";
   "ws = Workspace.from_config()";
   "";
   "datasets.CIFAR10(" +:+ dq +:+ "." +:+ dq +:+ ", download=True)";
   "";
   "ds = ws.get_default_datastore()";
   "ds.upload(";
   "    src_dir=" +:+ dq +:+ "cifar-10-batches-py" +:+ dq +:+ ",";
   "    target_path=" +:+ dq +:+ "tutorials/datasets/cifar-10-batches-py" +:+ dq +:+ ",";
   "    overwrite=True,";
   ")"].

(** Cell 5 (code). *)
Definition source_5 : list string :=
  ["import os";
   "import shutil";
   "";
   "os.remove(" +:+ dq +:+ "cifar-10-python.tar.gz" +:+ dq +:+ ")";
   "shutil.rmtree(" +:+ dq +:+ "cifar-10-batches-py" +:+ dq +:+ ")"].

(** Cell 6 (markdown). *)
Definition source_6 : list string :=
  ["The `target_path` specifies the path on the datastore where the CIFAR10 data will be uploaded."].

(** Cell 7 (markdown). *)
Definition source_7 : list string :=
  ["## Submit your machine learning code to Azure Machine Learning";
   "";
   "As you have done previously, create a new Python control script:"].

(** Cell 8 (code). *)
Definition source_8 : list string :=
  ["from azureml.core import (";
   "    Experiment,";
   "    Environment,";
   "    ScriptRunConfig,";
   "    Dataset,";
   ")";
   "from azureml.widgets import RunDetails";
   "";
   "ds = Dataset.File.from_files((ws.get_default_datastore(), " +:+ dq +:+ "tutorials/datasets/" +:+ dq +:+ "))";
   "env = Environment.from_conda_specification(";
   "    name=" +:+ dq +:+ "pytorch-env-tutorial" +:+ dq +:+ ",";
   "    file_path=" +:+ dq +:+ "environment.yml" +:+ dq +:+ ",";
   ")";
   "";
   "src = ScriptRunConfig(";
   "    source_directory=" +:+ dq +:+ "src" +:+ dq +:+ ",";
   "    script=" +:+ dq +:+ "train-with-cloud-data-and-logging.py" +:+ dq +:+ ",";
   "    compute_target=" +:+ dq +:+ "cpu-cluster" +:+ dq +:+ ",";
   "    environment=env,";
   "    arguments=[";
   "        " +:+ dq +:+ "--data-path" +:+ dq +:+ ",";
   "        ds.as_mount(),";
   "        " +:+ dq +:+ "--learning-rate" +:+ dq +:+ ",";
   "        0.003,";
   "        " +:+ dq +:+ "--momentum" +:+ dq +:+ ",";
   "        0.92,";
   "        " +:+ dq +:+ "--epochs" +:+ dq +:+ ",";
   "        2,";
   "    ],";
   ")";
   "";
   "run = Experiment(";
   "    workspace=ws, name=" +:+ dq +:+ "an-introduction-train-cloud-data-logging-tutorial" +:+ dq;
   ").submit(src)";
   "RunDetails(run).show()"].

(** Cell 9 (markdown). *)
Definition source_9 : list string :=
  ["### Understand the control code";
   "";
   "The above control code has the following additional code compared to the control code written in [previous tutorial](2.pytorch-model.ipynb)";
   "";
   "**`ds = Dataset.File.from_files(path=(datastore, 'tutorials/datasets'))`**: A Dataset is used to reference the data you uploaded to the Azure Blob Store. Datasets are an abstraction layer on top of your data that are designed to improve reliability and trustworthiness.";
   "";
   "";
   "**`src = ScriptRunConfig(...)`**: We modified the `ScriptRunConfig` to include a list of arguments that will be passed into training script. We also specified `ds.as_mount()`, which means the directory specified will be _mounted_ to the compute target.";
   "";
   "## Inspect the 70_driver_log log file";
   "";
   "In the navigate to the 70_driver_log.txt file - you should see the following output:";
   "";
   "```";
   "Processing 'input'.";
   "Processing dataset FileDataset";
   "{";
   "  " +:+ dq +:+ "source" +:+ dq +:+ ": [";
   "    " +:+ dq +:+ "('workspaceblobstore', 'datasets/cifar10')" +:+ dq;
   "  ],";
   "  " +:+ dq +:+ "definition" +:+ dq +:+ ": [";
   "    " +:+ dq +:+ "GetDatastoreFiles" +:+ dq;
   "  ],";
   "  " +:+ dq +:+ "registration" +:+ dq +:+ ": {";
   "    " +:+ dq +:+ "id" +:+ dq +:+ ": " +:+ dq +:+ "XXXXX" +:+ dq +:+ ",";
   "    " +:+ dq +:+ "name" +:+ dq +:+ ": null,";
   "    " +:+ dq +:+ "version" +:+ dq +:+ ": null,";
   "    " +:+ dq +:+ "workspace" +:+ dq +:+ ": " +:+ dq +:+ "Workspace.create(name='XXXX', subscription_id='XXXX', resource_group='X')" +:+ dq;
   "  }";
   "}";
   "Mounting input to /tmp/tmp9kituvp3.";
   "Mounted input to /tmp/tmp9kituvp3 as folder.";
   "Exit __enter__ of DatasetContextManager";
   "Entering Run History Context Manager.";
   "Current directory:  /mnt/batch/tasks/shared/LS_root/jobs/dsvm-aml/azureml/tutorial-session-3_1600171983_763c5381/mounts/workspaceblobstore/azureml/tutorial-session-3_1600171983_763c5381";
   "Preparing to call script [ train.py ] with arguments: ['--data_path', '$input', '--learning_rate', '0.003', '--momentum', '0.92']";
   "After variable expansion, calling script [ train.py ] with arguments: ['--data_path', '/tmp/tmp9kituvp3', '--learning_rate', '0.003', '--momentum', '0.92']";
   "";
   "Script type = None";
   "===== DATA =====";
   "DATA PATH: /tmp/tmp9kituvp3";
   "LIST FILES IN DATA PATH...";
   "['cifar-10-batches-py', 'cifar-10-python.tar.gz']";
   "```";
   "";
   "Notice:";
   "";
   "1. Azure Machine Learning has mounted the blob store to the compute cluster automatically for you";
   "2. The ``ds.as_mount()`` used in the control script resolves to the mount point";
   "3. In the machine learning code we include a line to list the directorys under the data directory - you can see the list above"].

(** Cell 10 (markdown). *)
Definition source_10 : list string :=
  ["If you're not going to use what you've created here, delete the resources you just created with this quickstart so you don't incur any charges for storage. In the Azure portal, select and delete your resource group."].

(** Cell 11 (code). *)
Definition source_11 : list string :=
  ["run.wait_for_completion(show_output=True)"].

(** *** What the code cells do *)

(** Cell 3. *)
Definition pip_install : M unit :=
  shell "pip install --upgrade torchvision".

(** Cell 4. *)
Definition upload_data : M unit :=
  import "azureml.core" ["Workspace"; "Dataset"] ;;
  import "torchvision" ["datasets"] ;;
  (* ws = Workspace.from_config() *)
  assign_handle "ws" Workspace_from_config ;;
  (* datasets.CIFAR10(".", download=True) *)
  datasets_CIFAR10 "." true ;;
  (* ds = ws.get_default_datastore() *)
  assign_handle "ds" (ws ← get_handle "ws"; get_default_datastore ws) ;;
  (* ds.upload(src_dir=..., target_path=..., overwrite=True) *)
  discard (ds ← get_handle "ds";
           upload ds "cifar-10-batches-py"
                  "tutorials/datasets/cifar-10-batches-py" true).

(** Cell 5. *)
Definition clean_up : M unit :=
  import "os" ["os"] ;;
  import "shutil" ["shutil"] ;;
  os_remove "cifar-10-python.tar.gz" ;;
  shutil_rmtree "cifar-10-batches-py".

(** Cell 8.  Keyword arguments are evaluated in the order written:
    [environment=env] before [arguments=[..., ds.as_mount(), ...]]. *)
Definition control_script : M unit :=
  import "azureml.core" ["Experiment"; "Environment"; "ScriptRunConfig"; "Dataset"] ;;
  import "azureml.widgets" ["RunDetails"] ;;
  (* ds = Dataset.File.from_files((ws.get_default_datastore(), "tutorials/datasets/")) *)
  assign_handle "ds"
    (ws ← get_handle "ws";
     store ← get_default_datastore ws;
     Dataset_File_from_files store "tutorials/datasets/") ;;
  (* env = Environment.from_conda_specification(name=..., file_path=...) *)
  assign_handle "env"
    (Environment_from_conda_specification "pytorch-env-tutorial" "environment.yml") ;;
  (* src = ScriptRunConfig(...) *)
  assign_handle "src"
    (env ← get_handle "env";
     ds ← get_handle "ds";
     mount ← as_mount ds;
     ScriptRunConfig "src" "train-with-cloud-data-and-logging.py"
       [AStr "--data-path"; AHandle mount;
        AStr "--learning-rate"; ADec 3 3;
        AStr "--momentum"; ADec 92 2;
        AStr "--epochs"; AInt 2]
       "cpu-cluster" env) ;;
  (* run = Experiment(workspace=ws, name=...).submit(src) *)
  assign_handle "run"
    (ws ← get_handle "ws";
     experiment ← Experiment ws "an-introduction-train-cloud-data-logging-tutorial";
     src ← get_handle "src";
     submit experiment src) ;;
  (* RunDetails(run).show() *)
  (run ← get_handle "run"; widget ← RunDetails run; show widget).

(** Cell 11. *)
Definition wait : M unit :=
  run ← get_handle "run"; wait_for_completion run true.

Definition ipynb : notebook :=
  {| origin := "python-sdk/tutorials/an-introduction/3.pytorch-model-cloud-data.ipynb";
     cells := [Markdown source_0; Markdown source_1; Markdown source_2;
               Code source_3 pip_install;
               Code source_4 upload_data;
               Code source_5 clean_up;
               Markdown source_6; Markdown source_7;
               Code source_8 control_script;
               Markdown source_9; Markdown source_10;
               Code source_11 wait] |}.

End CloudData.

(** ** The TensorBoard notebook, "Log metrics with TensorBoard in PyTorch
    Lightning" (the cells that follow the workflow in
    [.github/workflows/cli-scripts-create-compute.yml], lines 34-248) *)

Module TensorBoard.
Import Kernel Notebook.

(** *** Source lines *)

(** Cell 0 (markdown). *)
Definition source_0 : list string :=
  ["# Log metrics with TensorBoard in PyTorch Lightning";
   "";
   "description: log tensorboard metrics with pytorch lightning and visualize metrics in tensorboard";
   "";
   "Lightning supports many popular [logging frameworks](https://pytorch-lightning.readthedocs.io/en/stable/loggers.html). In this tutorial we will go over using the built-in TensorBoard logger and leveraging Azure ML's TensorBoard integration to visualize the metrics."].

(** Cell 1 (code). *)
Definition source_1 : list string :=
  ["from azureml.core import Workspace";
   "";
   "ws = Workspace.from_config()";
   "ws"].

(** Cell 2 (code). *)
Definition source_2 : list string :=
  ["# training script";
   "source_dir = " +:+ dq +:+ "src" +:+ dq;
   "script_name = " +:+ dq +:+ "train-with-tensorboard-logging.py" +:+ dq;
   "";
   "# environment file";
   "environment_file = " +:+ dq +:+ "environment.yml" +:+ dq;
   "";
   "# azure ml settings";
   "environment_name = " +:+ dq +:+ "pt-lightning" +:+ dq;
   "experiment_name = " +:+ dq +:+ "pt-lightning-tensorboard-tutorial" +:+ dq;
   "compute_name = " +:+ dq +:+ "gpu-K80-2" +:+ dq].

(** Cell 3 (markdown). *)
Definition source_3 : list string :=
  ["## Create environment";
   "";
   "Define a conda environment YAML file with your training script dependencies and create an Azure ML environment. This notebook will use the same environment definition that was used for part 1 of the tutorial. Note that TensorBoard is the default logger in Lightning and comes preinstalled, so you don't need to add the **tensorboard** package as a dependency to the environment for the remote job."].

(** Cell 4 (code). *)
Definition source_4 : list string :=
  ["from azureml.core import Environment";
   "";
   "env = Environment.from_conda_specification(environment_name, environment_file)";
   "";
   "# specify a GPU base image";
   "env.docker.enabled = True";
   "env.docker.base_image = (";
   "    " +:+ dq +:+ "mcr.microsoft.com/azureml/openmpi3.1.2-cuda10.2-cudnn8-ubuntu18.04" +:+ dq;
   ")"].

(** Cell 5 (markdown). *)
Definition source_5 : list string :=
  ["## Enable logging in training script";
   "";
   "In *train_with_tensorboard_logging.py*:";
   "";
   "### 1. Specify location to write logs";
   "Specify the path of the location for the logger to write logs out to. In this tutorial, we add a `--logdir` argument to the training script, with the default value of `./logs`. This is the path you should write your TensorBoard logs out to if you would like to use the Azure ML TensorBoard integration (see the following section). You can override the default value if you wish to write logs to a different path.";
   "";
   "### 2. Create a TensorBoardLogger";
   "Create a `TensorBoardLogger` in your training script and pass it to the `logger` parameter of the `Trainer()` call.";
   "";
   "```python";
   "    tb_logger = TensorBoardLogger(args.logdir)";
   "    trainer = pl.Trainer.from_argparse_args(args, logger=tb_logger)";
   "```";
   "    ";
   "### 3. Log metrics";
   "You can then log metrics and other objects in your script. In this tutorial's training script, we leverage Lightning's automatic log functionalities to log the loss metric by calling `self.log()` inside the `training_step()` method.";
   "";
   "";
   "For more information on logging and the configurable options, see Lightning's [Logging](https://pytorch-lightning.readthedocs.io/en/stable/logging.html) documentation and the [TensorBoardLogger](https://pytorch-lightning.readthedocs.io/en/stable/logging.html#tensorboard) reference documentation."].

(** Cell 6 (markdown). *)
Definition source_6 : list string :=
  ["## Configure and run training job";
   "";
   "Create a ScriptRunConfig to specify the training script & arguments, environment, and cluster to run on."].

(** Cell 7 (code). *)
Definition source_7 : list string :=
  ["from azureml.core import ScriptRunConfig, Experiment";
   "";
   "src = ScriptRunConfig(";
   "    source_directory=source_dir,";
   "    script=script_name,";
   "    arguments=[";
   "        " +:+ dq +:+ "--max_epochs" +:+ dq +:+ ",";
   "        25,";
   "        " +:+ dq +:+ "--gpus" +:+ dq +:+ ",";
   "        2,";
   "        " +:+ dq +:+ "--accelerator" +:+ dq +:+ ",";
   "        " +:+ dq +:+ "ddp" +:+ dq +:+ ",";
   "        " +:+ dq +:+ "--logdir" +:+ dq +:+ ",";
   "        " +:+ dq +:+ "./logs" +:+ dq +:+ ",";
   "    ],";
   "    compute_target=compute_name,";
   "    environment=env,";
   ")";
   "";
   "run = Experiment(ws, experiment_name).submit(src)";
   "run"].

(** Cell 8 (markdown). *)
Definition source_8 : list string :=
  ["## Visualize logs in TensorBoard";
   "";
   "Azure ML provides an integration for users to easily stream and visualize the logs from their remote job in TensorBoard. To use this functionality, make sure you have the **azureml-tensorboard** and **tensorflow** packages on your machine where you are running this notebook.";
   "";
   "You can launch TensorBoard either during your job or after it completes. First, create an Azure ML TensorBoard object and pass it the run(s) with the logs you wish to visualize. The TensorBoard constructor takes an array of runs, so if you only want to visualize one run, pass it in as a single-element array.";
   "";
   "Then, call the `start()` method, which will launch and start the TensorBoard server on your local machine. This will give you the URI from where you can access TensorBoard in your browser. By default this will be http://localhost:6006/. You can change the port that the TensorBoard instance will run on by specifying the `port` parameter to the `TensorBoard()` call."].

(** Cell 9 (code). *)
Definition source_9 : list string :=
  ["from azureml.tensorboard import Tensorboard";
   "";
   "tb = Tensorboard([run])";
   "";
   "# If successful, start() returns a string with the URI of the instance.";
   "tb.start()"].

(** Cell 10 (markdown). *)
Definition source_10 : list string :=
  ["After you are done using TensorBoard, be sure to call `stop()` to stop the TensorBoard instance, otherwise it will continue to run until you shut down your notebook kernel."].

(** Cell 11 (code). *)
Definition source_11 : list string :=
  ["tb.stop()"].

(** Cell 12 (markdown). *)
Definition source_12 : list string :=
  ["For more information on using TensorBoard to visualize your Azure ML experiments, see [Visualize metrics with TensorBoard](https://docs.microsoft.com/azure/machine-learning/how-to-monitor-tensorboard) and the [TensorBoard reference documentation](https://docs.microsoft.com/python/api/azureml-tensorboard/azureml.tensorboard.tensorboard?view=azure-ml-py)."].

(** Cell 13 (code). *)
Definition source_13 : list string :=
  ["run.wait_for_completion(show_output=True)"].

(** *** What the code cells do *)

(** Cell 1. *)
Definition workspace : M unit :=
  import "azureml.core" ["Workspace"] ;;
  (* ws = Workspace.from_config() *)
  assign_handle "ws" Workspace_from_config ;;
  (* ws *)
  discard (get_name "ws").

(** Cell 2. *)
Definition settings : M unit :=
  assign "source_dir" (VStr "src") ;;
  assign "script_name" (VStr "train-with-tensorboard-logging.py") ;;
  assign "environment_file" (VStr "environment.yml") ;;
  assign "environment_name" (VStr "pt-lightning") ;;
  assign "experiment_name" (VStr "pt-lightning-tensorboard-tutorial") ;;
  assign "compute_name" (VStr "gpu-K80-2").

(** Cell 4. *)
Definition create_environment : M unit :=
  import "azureml.core" ["Environment"] ;;
  (* env = Environment.from_conda_specification(environment_name, environment_file) *)
  assign_handle "env"
    (name ← get_str "environment_name";
     file ← get_str "environment_file";
     Environment_from_conda_specification name file) ;;
  (* env.docker.enabled = True *)
  (env ← get_handle "env"; docker_enabled env true) ;;
  (* env.docker.base_image = (...) *)
  (env ← get_handle "env";
   docker_base_image env
     "mcr.microsoft.com/azureml/openmpi3.1.2-cuda10.2-cudnn8-ubuntu18.04").

(** Cell 7. *)
Definition configure_and_run : M unit :=
  import "azureml.core" ["ScriptRunConfig"; "Experiment"] ;;
  (* src = ScriptRunConfig(...) *)
  assign_handle "src"
    (source_dir ← get_str "source_dir";
     script_name ← get_str "script_name";
     compute_name ← get_str "compute_name";
     env ← get_handle "env";
     ScriptRunConfig source_dir script_name
       [AStr "--max_epochs"; AInt 25;
        AStr "--gpus"; AInt 2;
        AStr "--accelerator"; AStr "ddp";
        AStr "--logdir"; AStr "./logs"]
       compute_name env) ;;
  (* run = Experiment(ws, experiment_name).submit(src) *)
  assign_handle "run"
    (ws ← get_handle "ws";
     experiment_name ← get_str "experiment_name";
     experiment ← Experiment ws experiment_name;
     src ← get_handle "src";
     submit experiment src) ;;
  (* run *)
  discard (get_name "run").

(** Cell 9. *)
Definition start_tensorboard : M unit :=
  import "azureml.tensorboard" ["Tensorboard"] ;;
  (* tb = Tensorboard([run]) *)
  assign_handle "tb" (run ← get_handle "run"; Tensorboard [run]) ;;
  (* tb.start() *)
  (tb ← get_handle "tb"; start tb).

(** Cell 11. *)
Definition stop_tensorboard : M unit :=
  tb ← get_handle "tb"; stop tb.

(** Cell 13. *)
Definition wait : M unit :=
  run ← get_handle "run"; wait_for_completion run true.

Definition ipynb : notebook :=
  {| origin := "Log metrics with TensorBoard in PyTorch Lightning";
     cells := [Markdown source_0;
               Code source_1 workspace;
               Code source_2 settings;
               Markdown source_3;
               Code source_4 create_environment;
               Markdown source_5; Markdown source_6;
               Code source_7 configure_and_run;
               Markdown source_8;
               Code source_9 start_tensorboard;
               Markdown source_10;
               Code source_11 stop_tensorboard;
               Markdown source_12;
               Code source_13 wait] |}.

End TensorBoard.

(** Every notebook of the repository. *)
Definition notebooks : list Notebook.notebook :=
  [CloudData.ipynb; TensorBoard.ipynb].

(** * Properties *)

(** ** The workflow *)

Section WorkflowFacts.
Import Workflow.

(** A job fails exactly when some step that does not tolerate failure
    fails: the first such step is always reached. *)
Lemma run_steps_failure (result : step -> outcome) (ss : list step) :
  (run_steps result ss).1 = Failure <->
  exists s, s ∈ ss /\ continue_on_error s = false /\ result s = Failed.
Proof.
  induction ss as [|s rest IH]; simpl.
  - split; [discriminate|]. intros (s & Hs & _). by apply elem_of_nil in Hs.
  - destruct (result s) eqn:Hr.
    + destruct (run_steps result rest) as [c started]; simpl in *.
      rewrite IH. split.
      * intros (s' & Hin & Hc & Hf). exists s'. split; [by apply elem_of_cons; right|done].
      * intros (s' & Hin & Hc & Hf). apply elem_of_cons in Hin as [->|Hin].
        -- congruence.
        -- by exists s'.
    + destruct (continue_on_error s) eqn:Hc.
      * destruct (run_steps result rest) as [c started]; simpl in *.
        rewrite IH. split.
        -- intros (s' & Hin & Hc' & Hf). exists s'. split; [by apply elem_of_cons; right|done].
        -- intros (s' & Hin & Hc' & Hf). apply elem_of_cons in Hin as [->|Hin].
           ++ congruence.
           ++ by exists s'.
      * simpl. split; [|done]. intros _. exists s. split; [by apply elem_of_cons; left|done].
Qed.

(** A job without a failing step starts every step. *)
Lemma run_steps_all_succeed (result : step -> outcome) (ss : list step) :
  (forall s, s ∈ ss -> continue_on_error s = false -> result s = Succeeded) ->
  run_steps result ss = (Success, ss).
Proof.
  induction ss as [|s rest IH]; intros Hall; [done|]. simpl.
  rewrite IH by (intros s' Hin; apply Hall; by apply elem_of_cons; right).
  destruct (result s) eqn:Hr; [done|].
  destruct (continue_on_error s) eqn:Hc; [done|].
  rewrite Hall in Hr; [discriminate| by apply elem_of_cons; left | done].
Qed.

(** Of the steps of [build], only [setup] continues on error. *)
Lemma build_step_strict (s : step) :
  s ∈ steps build -> s <> setup -> continue_on_error s = false.
Proof.
  unfold build; simpl. intros Hin Hne.
  repeat (apply elem_of_cons in Hin as [->|Hin]; [done || by destruct Hne|]).
  by apply elem_of_nil in Hin.
Qed.

(** C2.  Exactly one step of the job carries [continue-on-error: true],
    the setup step, whose command is [bash setup.sh]; when any other step
    of the job fails, the job fails; and when only the setup step fails,
    the job succeeds. *)
Theorem only_setup_tolerates_failure :
  List.filter continue_on_error (steps build) = [setup] /\
  run setup = Some "bash setup.sh" /\
  (forall (result : step -> outcome) (s : step),
     s ∈ steps build -> s <> setup -> result s = Failed ->
     (run_job result build).1 = Failure) /\
  (forall (result : step -> outcome),
     (forall s, s ∈ steps build -> s <> setup -> result s = Succeeded) ->
     run_job result build = (Success, steps build)).
Proof.
  split; [reflexivity|]. split; [reflexivity|]. split.
  - intros result s Hin Hne Hfail. unfold run_job.
    apply run_steps_failure. exists s.
    split; [done|]. split; [by apply build_step_strict|done].
  - intros result Hok. unfold run_job. apply run_steps_all_succeed.
    intros s Hin Hstrict. apply Hok; [done|].
    intros ->. discriminate Hstrict.
Qed.

Lemma only_setup_tolerates_failure_witness :
  (run_job (fails_at "azure login") build).1 = Failure /\
  run_job (fails_at "setup") build = (Success, steps build).
Proof.
  split.
  - apply (proj1 (proj2 (proj2 only_setup_tolerates_failure))
             (fails_at "azure login") azure_login).
    + unfold build; simpl. apply elem_of_cons; right. apply elem_of_cons; by left.
    + discriminate.
    + reflexivity.
  - apply (proj2 (proj2 (proj2 only_setup_tolerates_failure)) (fails_at "setup")).
    intros s Hin Hne. unfold build in Hin; simpl in Hin.
    repeat (apply elem_of_cons in Hin as [->|Hin]; [reflexivity || by destruct Hne|]).
    by apply elem_of_nil in Hin.
Defined.

(** C3, as stated, fails: the job's steps are not the four actions check
    out, log in, install the extension, run a bash script. *)
Lemma build_is_not_four_actions :
  map action_of (steps build) <> [CheckOut; AzureLogin; InstallMlCli; RunBashScript] /\
  length (steps build) = 6.
Proof. split; [discriminate|reflexivity]. Qed.

(** C3, amended.  The job consists of exactly six steps in this order:
    check out the repo, log into Azure, install the [ml] CLI extension, run
    [bash setup.sh] in [cli] with errors tolerated, upgrade and install apt
    packages ([uuid-runtime], [jq]), and run [bash -x create-compute.sh] in
    [cli] under [set -e]; no step but [setup] tolerates errors and no step
    but [setup] and the last names a working directory.  The four actions
    of the claim are the first, second, third and last of the six, and a
    run in which every step succeeds starts all six in that order. *)
Theorem build_is_six_steps :
  map (fun s => (uses s, run s, working_directory s, continue_on_error s))
      (steps build) =
    [(Some "actions/checkout@v2", None, None, false);
     (Some "azure/login@v1", None, None, false);
     (None, Some "az extension add -n ml -y", None, false);
     (None, Some "bash setup.sh", Some "cli", true);
     (None, Some "sudo apt-get upgrade -y && sudo apt-get install uuid-runtime jq -y",
      None, false);
     (None, Some "set -e; bash -x create-compute.sh", Some "cli", false)] /\
  map action_of (steps build) =
    [CheckOut; AzureLogin; InstallMlCli; RunBashScript; OtherCommand; RunBashScript] /\
  map action_of [check_out_repo; azure_login; install_ml_cli; test_script_script] =
    [CheckOut; AzureLogin; InstallMlCli; RunBashScript] /\
  map name (run_job (fun _ => Succeeded) build).2 =
    ["check out repo"; "azure login"; "install ml cli"; "setup";
     "scripts installs"; "test script script"].
Proof. repeat split. Qed.

(** The workflow's cron line fires at minute 0 of every fourth hour. *)
Lemma cron_line_every_four_hours (t : instant) :
  line_fires "0 0/4 * * *" t = true <-> minute t = 0 /\ hour t mod 4 = 0.
Proof.
  unfold line_fires.
  replace (parse_cron "0 0/4 * * *")
    with (Some (Cron (Exactly 0) (Every 0 4) Any Any Any)) by reflexivity.
  unfold cron_fires, field_matches; cbn [c_minute c_hour c_day_of_month c_month c_day_of_week].
  rewrite !andb_true_r, andb_true_iff, Nat.sub_0_r.
  rewrite !Nat.eqb_eq. cbn [Nat.leb andb]. by rewrite Nat.eqb_eq.
Qed.

Lemma literal_pattern_matches glob (p s : string) :
  literal p = true -> (pattern_matches glob p s = true <-> s = p).
Proof.
  intros Hlit. unfold pattern_matches. rewrite Hlit, String.eqb_eq. split; congruence.
Qed.

(** C4.  The workflow is triggered exactly by a tick of the clock at minute
    0 of an hour divisible by four (its cron line [0 0/4 * * *]) and by a
    pull request whose base branch is [main] or [cli-preview] and which
    changes [cli/create-compute.sh] or the workflow file; every triggering
    event sets off the one job [build], which logs into Azure and then runs
    [create-compute.sh]. *)
Theorem triggered_by_schedule_or_pull_request
    (glob : string -> string -> bool) (e : event) :
  schedule (on cli_scripts_create_compute) = ["0 0/4 * * *"] /\
  (triggered glob cli_scripts_create_compute e = true <->
     (exists t, e = Tick t /\ minute t = 0 /\ hour t mod 4 = 0) \/
     (exists base changed, e = PullRequest base changed /\
        (base = "main" \/ base = "cli-preview") /\
        exists f, f ∈ changed /\
          (f = "cli/create-compute.sh" \/
           f = ".github/workflows/cli-scripts-create-compute.yml"))) /\
  (if triggered glob cli_scripts_create_compute e
   then dispatch glob cli_scripts_create_compute e = [build]
   else dispatch glob cli_scripts_create_compute e = []) /\
  (exists before between,
     (run_job (fun _ => Succeeded) build).2 =
       before ++ azure_login :: between ++ [test_script_script]) /\
  action_of azure_login = AzureLogin /\
  run test_script_script = Some "set -e; bash -x create-compute.sh".
Proof.
  split; [reflexivity|]. split; [|split; [|split; [|split; reflexivity]]].
  - destruct e as [t|base changed|branch changed|]; simpl.
    + rewrite orb_false_r, cron_line_every_four_hours. split.
      * intros [Hm Hh]. left. by exists t.
      * intros [(t' & [= <-] & Hm & Hh)|(b & c & [=] & _)]. done.
    + unfold pull_request_admitted; simpl.
      rewrite andb_true_iff, orb_false_r, orb_true_iff.
      rewrite !(literal_pattern_matches glob) by reflexivity.
      rewrite existsb_exists. split.
      * intros [Hbase (f & Hf & Hm)]. right. exists base, changed.
        split; [done|]. split; [done|]. exists f.
        split; [by apply list_elem_of_In|].
        cbn [filter_admits existsb] in Hm.
        rewrite orb_false_r, orb_true_iff in Hm.
        by rewrite !(literal_pattern_matches glob) in Hm by reflexivity.
      * intros [(t & [=] & _)|(b & c & [= <- <-] & Hbase & f & Hf & Hm)].
        split; [done|]. exists f. split; [by apply list_elem_of_In|].
        cbn [filter_admits existsb].
        rewrite orb_false_r, orb_true_iff.
        by rewrite !(literal_pattern_matches glob) by reflexivity.
    + split; [discriminate|]. by intros [(t & [=] & _)|(b & c & [=] & _)].
    + split; [discriminate|]. by intros [(t & [=] & _)|(b & c & [=] & _)].
  - unfold dispatch. by destruct (triggered glob cli_scripts_create_compute e).
  - exists [check_out_repo], [install_ml_cli; setup; scripts_installs]. reflexivity.
Qed.

End WorkflowFacts.

(** ** The notebooks *)

Import Kernel Notebook Pipeline.

(** Unfolds the statements of the cells down to the world they act on,
    leaving map lookups and the service's answers in place. *)
Ltac kernel_unfold :=
  lazy beta iota zeta delta
    [run run_cells cells mbind M_bind mret M_ret raise
     CloudData.ipynb CloudData.pip_install CloudData.upload_data
     CloudData.clean_up CloudData.control_script CloudData.wait
     TensorBoard.ipynb TensorBoard.workspace TensorBoard.settings
     TensorBoard.create_environment TensorBoard.configure_and_run
     TensorBoard.start_tensorboard TensorBoard.stop_tensorboard TensorBoard.wait
     assign_handle discard shell import assign get_handle get_str get_name
     invoke Workspace_from_config get_default_datastore upload
     Dataset_File_from_files as_mount Environment_from_conda_specification
     docker_enabled docker_base_image ScriptRunConfig Experiment submit
     RunDetails show wait_for_completion Tensorboard start stop
     datasets_CIFAR10 intact download_url urlretrieve extract_archive
     os_remove shutil_rmtree join String.eqb Ascii.eqb Bool.eqb
     fresh quiet set_namespace set_cwd set_blobs log_call log_shell log_import
     set_tensorboards surroundings namespace cwd blobs calls shell_history
     imported tensorboards service download cifar_archive cifar_batches
     length app fold_left returns id h_id h_kind world_of raised take drop].

(** Reads a name from a namespace built by the cells run so far. *)
Ltac lookup_name :=
  match goal with
  | |- context [@lookup string value (gmap string value) _ ?k ?m] =>
      let r := eval vm_compute in (m !! k) in
      change (m !! k) with r
  end.

(** Reads an entry of the working directory after inserts and deletes,
    or as a hypothesis gives it. *)
Ltac lookup_cwd :=
  first [ rewrite lookup_insert_eq
        | rewrite lookup_insert_ne by done
        | rewrite lookup_delete_eq
        | rewrite lookup_delete_ne by done
        | match goal with
          | H : ?m !! ?k = _ |- context [?m !! ?k] => rewrite H
          end ].

(** Uses what is known of the service's answers. *)
Ltac answer :=
  match goal with
  | H : ?svc ?k = Some _ |- context [?svc ?k] => rewrite H
  | H : ?svc ?k = None |- context [?svc ?k] => rewrite H
  | H : forall i, i < _ -> ?svc i = None |- context [?svc ?i] =>
      rewrite (H i) by lia
  end.

Ltac symex :=
  kernel_unfold;
  repeat (first [lookup_name | lookup_cwd | answer]; kernel_unfold).

(** Deleting what the download put there undoes the download, up to the
    entries of those two names. *)
Lemma downloaded_then_deleted (archive : content) (batches : gmap string content)
    (files : gmap string node) :
  delete "cifar-10-batches-py"
    (delete "cifar-10-python.tar.gz"
       (<["cifar-10-batches-py" := Dir batches]>
          (<["cifar-10-python.tar.gz" := File archive]> files))) =
  delete "cifar-10-batches-py" (delete "cifar-10-python.tar.gz" files).
Proof.
  rewrite (delete_insert_ne _ "cifar-10-python.tar.gz" "cifar-10-batches-py") by done.
  by rewrite !delete_insert.
Qed.

(** Where neither entry was there, deleting both after the download gives
    back the working directory. *)
Lemma download_undone (archive : content) (batches : gmap string content)
    (files : gmap string node) :
  files !! "cifar-10-python.tar.gz" = None ->
  files !! "cifar-10-batches-py" = None ->
  delete "cifar-10-batches-py"
    (delete "cifar-10-python.tar.gz"
       (<["cifar-10-batches-py" := Dir batches]>
          (<["cifar-10-python.tar.gz" := File archive]> files))) = files.
Proof.
  intros Harchive Hdir. rewrite downloaded_then_deleted.
  rewrite (delete_id files) by exact Harchive. by apply delete_id.
Qed.

Section TensorBoardFacts.

Variables (archive : content) (batches : gmap string content).
Variables (files : gmap string node) (store : gmap string content).

(** The TensorBoard notebook runs to its end when the service answers
    every call, and touches neither the working directory nor the
    datastore; the TensorBoard instance it started is stopped. *)
Lemma tensorboard_run :
  exists W, run TensorBoard.ipynb (fresh (quiet archive batches) files store) = Ok tt W /\
    calls W = script TensorBoard.ipynb /\
    cwd W = files /\ blobs W = store /\ tensorboards W = [].
Proof.
  eexists. split; [symex; reflexivity|].
  cbn [calls cwd blobs tensorboards]. by repeat split.
Qed.

End TensorBoardFacts.

Section CloudDataFacts.

Variables (archive : content) (batches : gmap string content).
Variables (files : gmap string node) (store : gmap string content).

(** The working directory the notebook is started in holds neither the
    CIFAR10 archive nor the directory it unpacks to. *)
Hypothesis no_archive : files !! "cifar-10-python.tar.gz" = None.
Hypothesis no_directory : files !! "cifar-10-batches-py" = None.

(** Started where neither the archive nor the directory is, the cloud-data
    notebook runs to its end when the download gets through and the
    service answers every call: it makes the calls of its script and
    leaves the working directory as it found it. *)
Lemma cloud_data_run :
  exists W, run CloudData.ipynb (fresh (quiet archive batches) files store) = Ok tt W /\
    calls W = script CloudData.ipynb /\
    cwd W = files /\
    tensorboards W = [].
Proof.
  eexists. split; [symex; reflexivity|].
  cbn [calls cwd tensorboards].
  split; [reflexivity|]. split; [|done].
  by apply download_undone.
Qed.

(** Up to and including its upload cell, the cloud-data notebook leaves
    the CIFAR10 archive and the directory it unpacks to in the working
    directory. *)
Lemma cloud_data_downloads :
  exists W, run_cells (take 5 (cells CloudData.ipynb))
              (fresh (quiet archive batches) files store) = Ok tt W /\
    cwd W = <["cifar-10-batches-py" := Dir batches]>
              (<["cifar-10-python.tar.gz" := File archive]> files).
Proof. eexists. split; [symex; reflexivity|]. reflexivity. Qed.

(** C1, as stated, fails: neither notebook keeps the order workspace,
    environment, dataset, run configuration, submit, poll, visualization.
    The cloud-data notebook references its dataset before it defines the
    environment, and both notebooks launch their log viewer before they
    poll the run. *)
Lemma notebooks_not_in_stage_order :
  in_rank_order (stages (script CloudData.ipynb)) = false /\
  precedes DefineEnvironment ProvideDataset (stages (script CloudData.ipynb)) = false /\
  precedes PollJob Visualize (stages (script CloudData.ipynb)) = false /\
  in_rank_order (stages (script TensorBoard.ipynb)) = false /\
  precedes PollJob Visualize (stages (script TensorBoard.ipynb)) = false.
Proof. by vm_compute. Qed.

(** C1, amended.  In every notebook the workspace handle is built first,
    the environment is defined and the dataset (where there is one) is
    uploaded or referenced before the run configuration is constructed,
    the run configuration is constructed before the job is submitted, and
    the job is submitted before it is polled and before the log viewer is
    launched.  The cloud-data notebook provides its dataset before the
    environment; the TensorBoard notebook has no dataset stage; both
    launch the viewer before polling.  This is the order of the calls of
    the script of each notebook, and of every run that is started in a
    working directory holding neither the CIFAR10 archive nor the
    directory it unpacks to, with the download getting through and the
    service answering every call. *)
Theorem notebooks_keep_dependency_order :
  Forall (fun nb => in_dependency_order (stages (script nb)) = true) notebooks /\
  Forall (fun nb =>
            exists W, run nb (fresh (quiet archive batches) files store) = Ok tt W /\
              calls W = script nb /\
              in_dependency_order (stages (calls W)) = true) notebooks /\
  stages (script CloudData.ipynb) =
    [BuildWorkspace; ProvideDataset; ProvideDataset; ProvideDataset;
     ProvideDataset; DefineEnvironment; ProvideDataset; ConfigureRun;
     SubmitJob; SubmitJob; Visualize; Visualize; PollJob] /\
  stages (script TensorBoard.ipynb) =
    [BuildWorkspace; DefineEnvironment; DefineEnvironment; DefineEnvironment;
     ConfigureRun; SubmitJob; SubmitJob; Visualize; Visualize; Visualize;
     PollJob].
Proof.
  split; [|split; [|split; by vm_compute]].
  - unfold notebooks.
    apply List.Forall_cons; [|apply List.Forall_cons; [|apply List.Forall_nil]];
      vm_compute; reflexivity.
  - unfold notebooks. apply List.Forall_cons; [|apply List.Forall_cons; [|apply List.Forall_nil]].
    + destruct cloud_data_run as (W & Hrun & Hcalls & _).
      exists W. rewrite Hcalls. split; [exact Hrun|]. split; [reflexivity|].
      vm_compute; reflexivity.
    + destruct (tensorboard_run archive batches files store) as (W & Hrun & Hcalls & _).
      exists W. rewrite Hcalls. split; [exact Hrun|]. split; [reflexivity|].
      vm_compute; reflexivity.
Qed.

(** What [handles_flow] checks. *)
Lemma handles_flow_sound (log : list Call.t) :
  handles_flow log = true ->
  forall i c h k, log !! i = Some c -> (h, k) ∈ consumes c ->
    h_kind h = k /\ h_id h < i /\
    exists c', log !! h_id h = Some c' /\ returns c' = k.
Proof.
  unfold handles_flow. rewrite forallb_forall. intros Hall i c h k Hi Hin.
  specialize (Hall (i, c)). cbn beta iota in Hall.
  rewrite forallb_forall in Hall.
  assert (In (i, c) (imap pair log)) as Hmem.
  { apply list_elem_of_In, elem_of_lookup_imap. by exists i, c. }
  specialize (Hall Hmem (h, k) (proj1 (list_elem_of_In _ _) Hin)).
  unfold produced_before in Hall.
  apply andb_true_iff in Hall as [Hall Hlog].
  apply andb_true_iff in Hall as [Hkind Hlt].
  apply bool_decide_eq_true in Hkind. apply Nat.ltb_lt in Hlt.
  split; [done|]. split; [done|].
  destruct (log !! h_id h) as [c'|]; [|discriminate].
  exists c'. split; [done|]. by apply bool_decide_eq_true in Hlog.
Qed.

(** C7.  In every notebook, started in a new kernel in a working directory
    holding neither the CIFAR10 archive nor the directory it unpacks to,
    with the download getting through and the service answering every
    call, no name is read before it is bound, and every handle an SDK call
    consumes was returned by an earlier call of the same run, of the kind
    the consuming call expects: the workspace [ws] before
    [get_default_datastore] and [Experiment], the environment [env] before
    [ScriptRunConfig], the run configuration [src] before [submit], the run
    [run] before [RunDetails], [Tensorboard] and [wait_for_completion]. *)
Theorem handles_come_from_earlier_calls :
  Forall (fun nb =>
            exists W, run nb (fresh (quiet archive batches) files store) = Ok tt W /\
              calls W = script nb /\
              forall i c h k, calls W !! i = Some c -> (h, k) ∈ consumes c ->
                h_kind h = k /\ h_id h < i /\
                exists c', calls W !! h_id h = Some c' /\ returns c' = k) notebooks.
Proof.
  unfold notebooks. apply List.Forall_cons; [|apply List.Forall_cons; [|apply List.Forall_nil]].
  - destruct cloud_data_run as (W & Hrun & Hcalls & _).
    exists W. split; [exact Hrun|]. split; [exact Hcalls|].
    rewrite Hcalls. apply handles_flow_sound. vm_compute; reflexivity.
  - destruct (tensorboard_run archive batches files store) as (W & Hrun & Hcalls & _).
    exists W. split; [exact Hrun|]. split; [exact Hcalls|].
    rewrite Hcalls. apply handles_flow_sound. vm_compute; reflexivity.
Qed.

(** C5, amended.  The cloud-data notebook does create and delete local
    entities.  Started in a working directory that holds neither
    [cifar-10-python.tar.gz] nor [cifar-10-batches-py], its upload cell
    leaves the CIFAR10 archive and the directory it unpacks to there, and
    its clean-up cell deletes both, so that after the whole notebook the
    working directory is as it was before.  The TensorBoard notebook
    leaves the working directory as it was. *)
Theorem cloud_data_restores_working_directory :
  (exists W, run_cells (take 5 (cells CloudData.ipynb))
               (fresh (quiet archive batches) files store) = Ok tt W /\
     cwd W = <["cifar-10-batches-py" := Dir batches]>
               (<["cifar-10-python.tar.gz" := File archive]> files)) /\
  (exists W, run CloudData.ipynb (fresh (quiet archive batches) files store) = Ok tt W /\
     cwd W = files) /\
  (exists W, run TensorBoard.ipynb (fresh (quiet archive batches) files store) = Ok tt W /\
     cwd W = files).
Proof.
  split; [|split].
  - exact cloud_data_downloads.
  - destruct cloud_data_run as (W & Hrun & _ & Hcwd & _).
    exists W. split; [exact Hrun|exact Hcwd].
  - destruct (tensorboard_run archive batches files store) as (W & Hrun & _ & Hcwd & _).
    exists W. split; [exact Hrun|exact Hcwd].
Qed.


End CloudDataFacts.

(** The run configuration of the cloud-data notebook is the eighth call of
    its run; the environment it consumes is the result of the sixth. *)
Lemma handles_come_from_earlier_calls_witness :
  exists c', script CloudData.ipynb !! 5 = Some c' /\ returns c' = KEnvironment.
Proof.
  pose proof (handles_come_from_earlier_calls [] ∅ ∅ ∅
                (lookup_empty _) (lookup_empty _)) as Hall.
  apply Forall_cons in Hall as [(W & Hrun & Hcalls & Hflow) _].
  rewrite Hcalls in Hflow.
  destruct (Hflow 7
              (Call.ScriptRunConfig "src" "train-with-cloud-data-and-logging.py"
                 [AStr "--data-path"; AHandle (Handle KDatasetConsumption 6);
                  AStr "--learning-rate"; ADec 3 3;
                  AStr "--momentum"; ADec 92 2;
                  AStr "--epochs"; AInt 2]
                 "cpu-cluster" (Handle KEnvironment 5))
              (Handle KEnvironment 5) KEnvironment) as (_ & _ & Hc').
  - vm_compute; reflexivity.
  - apply elem_of_cons; right. apply elem_of_cons; by left.
  - exact Hc'.
Defined.

(** Started in an empty working directory, both notebooks run to their end
    and keep the order. *)
Lemma notebooks_keep_dependency_order_witness :
  Forall (fun nb =>
            exists W, run nb (fresh (quiet [] ∅) ∅ ∅) = Ok tt W /\
              calls W = script nb /\
              in_dependency_order (stages (calls W)) = true) notebooks.
Proof.
  exact (proj1 (proj2 (notebooks_keep_dependency_order [] ∅ ∅ ∅
                         (lookup_empty _) (lookup_empty _)))).
Defined.

(** Started in an empty working directory, the cloud-data notebook ends in
    an empty working directory. *)
Lemma cloud_data_restores_working_directory_witness :
  exists W, run CloudData.ipynb (fresh (quiet [] ∅) ∅ ∅) = Ok tt W /\ cwd W = ∅.
Proof.
  exact (proj1 (proj2 (cloud_data_restores_working_directory [] ∅ ∅ ∅
                         (lookup_empty _) (lookup_empty _)))).
Defined.


(** C5, as stated, fails: run in an empty working directory, the cells of
    the cloud-data notebook up to the upload cell leave two new entries
    there, which the clean-up cell then deletes; and run where an archive
    of that name already lies, the notebook leaves the working directory
    without it. *)
Lemma cloud_data_changes_working_directory :
  (exists W, run_cells (take 5 (cells CloudData.ipynb))
               (fresh (quiet [Byte.x01] {[ "data_batch_1" := [Byte.x02] ]}) ∅ ∅) = Ok tt W /\
     cwd W !! "cifar-10-python.tar.gz" = Some (File [Byte.x01]) /\
     cwd W !! "cifar-10-batches-py" = Some (Dir {[ "data_batch_1" := [Byte.x02] ]})) /\
  (exists W, run CloudData.ipynb
               (fresh (quiet [Byte.x01] {[ "data_batch_1" := [Byte.x02] ]})
                      {[ "cifar-10-python.tar.gz" := File [] ]} ∅) = Ok tt W /\
     cwd W !! "cifar-10-python.tar.gz" = None /\
     cwd W <> {[ "cifar-10-python.tar.gz" := File [] ]}).
Proof.
  split.
  - destruct (cloud_data_downloads
                [Byte.x01] {[ "data_batch_1" := [Byte.x02] ]} ∅ ∅
                (lookup_empty _) (lookup_empty _))
      as (W & Hrun & Hcwd).
    exists W. split; [exact Hrun|]. rewrite Hcwd.
    split; [|apply lookup_insert_eq].
    rewrite lookup_insert_ne by discriminate. apply lookup_insert_eq.
  - exists (world_of (run CloudData.ipynb
              (fresh (quiet [Byte.x01] {[ "data_batch_1" := [Byte.x02] ]})
                     {[ "cifar-10-python.tar.gz" := File [] ]} ∅))).
    split; [vm_compute; reflexivity|].
    assert (cwd (world_of (run CloudData.ipynb
              (fresh (quiet [Byte.x01] {[ "data_batch_1" := [Byte.x02] ]})
                     {[ "cifar-10-python.tar.gz" := File [] ]} ∅)))
            !! "cifar-10-python.tar.gz" = None) as Hgone
      by (vm_compute; reflexivity).
    split; [exact Hgone|]. intros Heq. rewrite Heq in Hgone.
    rewrite lookup_singleton_eq in Hgone. discriminate Hgone.
Qed.

(** ** Runs in which the service refuses a call *)


Section TensorBoardRefusals.

Variables (o : outside) (files : gmap string node) (store : gmap string content).


(** The TensorBoard notebook stops at the first call the service
    refuses. *)
Lemma tensorboard_refused_run (k : nat) (e : string) :
  (forall i, i < k -> service o i = None) ->
  service o k = Some e ->
  k < 11 ->
  exists W, run TensorBoard.ipynb (fresh o files store) = Raise (ServiceError e) W /\
    calls W = take (S k) (script TensorBoard.ipynb).
Proof.
  destruct o as [svc dl a b]. cbn [service]. intros Hnone Hk Hlt.
  do 11 (destruct k as [|k];
         [eexists; split; [symex; reflexivity|vm_compute; reflexivity]|]).
  lia.
Qed.

End TensorBoardRefusals.

Section CloudDataRefusals.

Variables (o : outside) (files : gmap string node) (store : gmap string content).

Hypothesis no_archive : files !! "cifar-10-python.tar.gz" = None.
Hypothesis no_directory : files !! "cifar-10-batches-py" = None.



Hypothesis fetched : download o = None.


(** The state in which the cloud-data notebook stops when the [k]-th call
    is the first the service refuses. *)
Lemma cloud_data_refused_run (k : nat) (e : string) :
  (forall i, i < k -> service o i = None) ->
  service o k = Some e ->
  k < 13 ->
  exists W, run CloudData.ipynb (fresh o files store) = Raise (ServiceError e) W /\
    calls W = take (S k) (script CloudData.ipynb) /\
    cwd W = (if Nat.eqb k 0 then files
             else if Nat.ltb k 3
                  then <["cifar-10-batches-py" := Dir (cifar_batches o)]>
                         (<["cifar-10-python.tar.gz" := File (cifar_archive o)]> files)
                  else files).
Proof.
  revert fetched. destruct o as [svc dl a b].
  cbn [service download cifar_batches cifar_archive]. intros -> Hnone Hk Hlt.
  do 13 (destruct k as [|k];
         [eexists; split; [symex; reflexivity|];
          split; [vm_compute; reflexivity|];
          first [reflexivity | by apply download_undone]|]).
  lia.
Qed.

(** X5.  Started in a working directory holding neither the CIFAR10
    archive nor the directory it unpacks to, with the download getting
    through: when the [k]-th SDK call of the cloud-data notebook is the
    first the service refuses, the run stops there, and the working
    directory is untouched if the refused call is [Workspace.from_config],
    still holds the downloaded archive and directory if it is
    [get_default_datastore] or [upload] (the clean-up cell is not
    reached), and is as it was before the run if it is any later call. *)
Theorem refused_cloud_data_run_leaves (k : nat) (e : string) :
  (forall i, i < k -> service o i = None) ->
  service o k = Some e ->
  k < length (script CloudData.ipynb) ->
  exists W, run CloudData.ipynb (fresh o files store) = Raise (ServiceError e) W /\
    cwd W = (if Nat.eqb k 0 then files
             else if Nat.ltb k 3
                  then <["cifar-10-batches-py" := Dir (cifar_batches o)]>
                         (<["cifar-10-python.tar.gz" := File (cifar_archive o)]> files)
                  else files).
Proof.
  intros Hnone Hk Hlt.
  destruct (cloud_data_refused_run k e Hnone Hk Hlt) as (W & Hrun & _ & Hcwd).
  exists W. split; [exact Hrun|exact Hcwd].
Qed.

End CloudDataRefusals.

(** C6.  No code cell of a notebook branches or handles exceptions; and
    when the service makes the [k]-th SDK call of a run raise, the run ends
    with that very exception, the raising call being the last SDK call
    made.  The run is one started in a new kernel, in a working directory
    holding neither the CIFAR10 archive nor the directory it unpacks to,
    with the download getting through, so that the run reaches its [k]-th
    call. *)
Theorem sdk_exception_stops_the_run (nb : notebook) (o : outside)
    (files : gmap string node) (store : gmap string content)
    (k : nat) (e : string) :
  nb ∈ notebooks ->
  files !! "cifar-10-python.tar.gz" = None ->
  files !! "cifar-10-batches-py" = None ->
  download o = None ->
  (forall i, i < k -> service o i = None) ->
  service o k = Some e ->
  k < length (script nb) ->
  straight_line nb = true /\
  exists W, run nb (fresh o files store) = Raise (ServiceError e) W /\
    calls W = take (S k) (script nb).
Proof.
  intros Hnb Harchive Hdir Hfetched Hnone Hk Hlt.
  unfold notebooks in Hnb.
  apply elem_of_cons in Hnb as [->|Hnb]; [|apply elem_of_cons in Hnb as [->|Hnb]].
  - split; [vm_compute; reflexivity|].
    destruct (cloud_data_refused_run o files store Harchive Hdir Hfetched k e Hnone Hk Hlt)
      as (W & Hrun & Hcalls & _).
    exists W. split; [exact Hrun|exact Hcalls].
  - split; [vm_compute; reflexivity|].
    destruct (tensorboard_refused_run o files store k e Hnone Hk Hlt)
      as (W & Hrun & Hcalls).
    exists W. split; [exact Hrun|exact Hcalls].
  - by apply elem_of_nil in Hnb.
Qed.

Lemma sdk_exception_stops_the_run_witness :
  straight_line CloudData.ipynb = true /\
  exists W, run CloudData.ipynb (fresh refuses_upload ∅ ∅)
              = Raise (ServiceError "upload failed") W /\
    calls W = take 3 (script CloudData.ipynb).
Proof.
  apply (sdk_exception_stops_the_run CloudData.ipynb refuses_upload ∅ ∅ 2 "upload failed").
  - unfold notebooks. apply elem_of_cons; by left.
  - apply lookup_empty.
  - apply lookup_empty.
  - reflexivity.
  - intros i Hi. destruct i as [|[|i]]; [reflexivity|reflexivity|lia].
  - reflexivity.
  - vm_compute. lia.
Defined.

Lemma refused_cloud_data_run_leaves_witness :
  exists W, run CloudData.ipynb (fresh refuses_upload ∅ ∅)
              = Raise (ServiceError "upload failed") W /\
    cwd W = <["cifar-10-batches-py" := Dir ∅]> (<["cifar-10-python.tar.gz" := File []]> ∅).
Proof.
  apply (refused_cloud_data_run_leaves refuses_upload ∅ ∅
           (lookup_empty _) (lookup_empty _) eq_refl 2 "upload failed").
  - intros i Hi. destruct i as [|[|i]]; [reflexivity|reflexivity|lia].
  - reflexivity.
  - vm_compute. lia.
Defined.





(** * Further properties of the workflow and the notebooks *)

Section StepReachability.
Import Workflow.

(** X1.  The step that runs [create-compute.sh] is started exactly when
    the checkout, the Azure login, the installation of the [ml] extension
    and the apt installs all succeed; the outcome of [setup] does not
    matter. *)
Theorem test_script_needs_strict_steps (result : step -> outcome) :
  test_script_script ∈ (run_job result build).2 <->
  result check_out_repo = Succeeded /\ result azure_login = Succeeded /\
  result install_ml_cli = Succeeded /\ result scripts_installs = Succeeded.
Proof.
  unfold run_job, build. cbn [steps run_steps].
  destruct (result check_out_repo), (result azure_login), (result install_ml_cli),
    (result setup), (result scripts_installs), (result test_script_script);
    cbn [continue_on_error check_out_repo azure_login install_ml_cli setup
         scripts_installs test_script_script snd];
    (split; [intros Hin | intros (? & ? & ? & ?); try discriminate]);
    try (repeat split; reflexivity);
    try (repeat (apply elem_of_cons; first [by left | right]); fail);
    try (exfalso; repeat (apply elem_of_cons in Hin as [Hin|Hin]; [discriminate Hin|]);
         by apply elem_of_nil in Hin).
Qed.

End StepReachability.

(** ** The clean-up cell *)

(** X2.  The clean-up cell of the cloud-data notebook succeeds exactly when
    the working directory holds [cifar-10-python.tar.gz] as a file and
    [cifar-10-batches-py] as a directory; it then removes these two entries
    and changes nothing else of the working directory, and it makes no SDK
    call. *)
Theorem clean_up_needs_download (w : world) :
  ((exists w', CloudData.clean_up w = Ok tt w') <->
   (exists d fs, cwd w !! "cifar-10-python.tar.gz" = Some (File d) /\
                 cwd w !! "cifar-10-batches-py" = Some (Dir fs))) /\
  (forall w', CloudData.clean_up w = Ok tt w' ->
     cwd w' = delete "cifar-10-batches-py" (delete "cifar-10-python.tar.gz" (cwd w)) /\
     calls w' = calls w).
Proof.
  destruct w as [o ns files st cs sh im tb]. kernel_unfold.
  destruct (files !! "cifar-10-python.tar.gz") as [[d|fs]|] eqn:Ha; kernel_unfold.
  - rewrite lookup_delete_ne by done.
    destruct (files !! "cifar-10-batches-py") as [[d'|fs]|] eqn:Hd.
    + split; [|intros w' [=]].
      split; [intros (w' & [=])|intros (? & ? & _ & [=])].
    + split; [|by intros w' [= <-]].
      split; [intros _; by exists d, fs|intros _; by eexists].
    + split; [|intros w' [=]].
      split; [intros (w' & [=])|intros (? & ? & _ & [=])].
  - split; [|intros w' [=]].
    split; [intros (w' & [=])|intros (? & ? & [=] & _)].
  - split; [|intros w' [=]].
    split; [intros (w' & [=])|intros (? & ? & [=] & _)].
Qed.

Lemma clean_up_needs_download_witness :
  cwd (world_of (CloudData.clean_up
         (fresh (quiet [] ∅)
            {[ "cifar-10-python.tar.gz" := File []; "cifar-10-batches-py" := Dir ∅ ]} ∅)))
  = delete "cifar-10-batches-py"
      (delete "cifar-10-python.tar.gz"
         {[ "cifar-10-python.tar.gz" := File []; "cifar-10-batches-py" := Dir ∅ ]}).
Proof.
  refine (proj1 (proj2 (clean_up_needs_download
                          (fresh (quiet [] ∅)
                             {[ "cifar-10-python.tar.gz" := File [];
                                "cifar-10-batches-py" := Dir ∅ ]} ∅)) _ _)).
  vm_compute. reflexivity.
Defined.

(** X3.  When the archive is there but the directory is not, the clean-up
    cell deletes the archive and then raises [FileNotFoundError] for the
    directory: the deletion it has done is not undone. *)
Theorem clean_up_stops_half_way (w : world) (d : content) :
  cwd w !! "cifar-10-python.tar.gz" = Some (File d) ->
  cwd w !! "cifar-10-batches-py" = None ->
  exists w', CloudData.clean_up w = Raise (FileNotFoundError "cifar-10-batches-py") w' /\
    cwd w' = delete "cifar-10-python.tar.gz" (cwd w).
Proof.
  destruct w as [o ns files st cs sh im tb]. cbn [cwd]. intros Ha Hd.
  kernel_unfold. rewrite Ha. kernel_unfold.
  rewrite lookup_delete_ne by done. rewrite Hd. by eexists.
Qed.

Lemma clean_up_stops_half_way_witness :
  exists w', CloudData.clean_up
               (fresh (quiet [] ∅) {[ "cifar-10-python.tar.gz" := File [] ]} ∅)
             = Raise (FileNotFoundError "cifar-10-batches-py") w' /\
    cwd w' = delete "cifar-10-python.tar.gz"
               (cwd (fresh (quiet [] ∅) {[ "cifar-10-python.tar.gz" := File [] ]} ∅)).
Proof.
  apply (clean_up_stops_half_way
           (fresh (quiet [] ∅) {[ "cifar-10-python.tar.gz" := File [] ]} ∅) []).
  - reflexivity.
  - reflexivity.
Defined.

(** X4.  The clean-up cell cannot be run twice: after a run that succeeded,
    a second run raises [FileNotFoundError] for the archive and leaves the
    working directory as it is. *)
Theorem clean_up_twice_raises (w w' : world) :
  CloudData.clean_up w = Ok tt w' ->
  exists w'', CloudData.clean_up w' = Raise (FileNotFoundError "cifar-10-python.tar.gz") w'' /\
    cwd w'' = cwd w'.
Proof.
  destruct w as [o ns files st cs sh im tb]. kernel_unfold.
  destruct (files !! "cifar-10-python.tar.gz") as [[d|fs]|] eqn:Ha;
    kernel_unfold; [|discriminate..].
  rewrite lookup_delete_ne by done.
  destruct (files !! "cifar-10-batches-py") as [[d'|fs]|] eqn:Hd; [discriminate| |discriminate].
  intros [= <-]. kernel_unfold.
  rewrite lookup_delete_ne by done. rewrite lookup_delete_eq. by eexists.
Qed.

Lemma clean_up_twice_raises_witness :
  exists w'', CloudData.clean_up
                (world_of (CloudData.clean_up
                   (fresh (quiet [] ∅)
                      {[ "cifar-10-python.tar.gz" := File [];
                         "cifar-10-batches-py" := Dir ∅ ]} ∅)))
              = Raise (FileNotFoundError "cifar-10-python.tar.gz") w'' /\
    cwd w'' = cwd (world_of (CloudData.clean_up
                     (fresh (quiet [] ∅)
                        {[ "cifar-10-python.tar.gz" := File [];
                           "cifar-10-batches-py" := Dir ∅ ]} ∅))).
Proof.
  apply (clean_up_twice_raises
           (fresh (quiet [] ∅)
              {[ "cifar-10-python.tar.gz" := File [];
                 "cifar-10-batches-py" := Dir ∅ ]} ∅)).
  vm_compute. reflexivity.
Defined.

(** ** Running a notebook again *)

Section Again.

Variables (archive : content) (batches : gmap string content).
Variables (files : gmap string node) (store : gmap string content).

Section CloudDataAgain.

Hypothesis no_archive : files !! "cifar-10-python.tar.gz" = None.
Hypothesis no_directory : files !! "cifar-10-batches-py" = None.

(** X9.  The cloud-data notebook can be run again in the same kernel: after
    a run started in a working directory holding neither the CIFAR10
    archive nor the directory it unpacks to, a second run from the state
    the first left succeeds, downloads again, makes the calls of the same
    stages again, and leaves the working directory as the first run left
    it. *)
Theorem cloud_data_runs_again :
  exists once twice,
    run CloudData.ipynb (fresh (quiet archive batches) files store) = Ok tt once /\
    run CloudData.ipynb once = Ok tt twice /\
    cwd twice = cwd once /\
    length (calls twice) = 2 * length (script CloudData.ipynb) /\
    stages (drop (length (script CloudData.ipynb)) (calls twice)) =
      stages (script CloudData.ipynb).
Proof.
  eexists. eexists.
  split; [symex; reflexivity|]. split; [symex; reflexivity|].
  cbn [cwd calls]. split; [|by split].
  rewrite !downloaded_then_deleted.
  apply map_eq. intros i. rewrite !lookup_delete.
  repeat case_decide; naive_solver.
Qed.

End CloudDataAgain.

(** X10.  The TensorBoard notebook can be run again in the same kernel:
    the second run starts and stops a TensorBoard instance of its own and
    leaves none running. *)
Theorem tensorboard_runs_again :
  exists once twice,
    run TensorBoard.ipynb (fresh (quiet archive batches) files store) = Ok tt once /\
    run TensorBoard.ipynb once = Ok tt twice /\
    cwd twice = files /\ blobs twice = store /\
    tensorboards twice = [] /\
    drop (length (script TensorBoard.ipynb) + 7) (calls twice) =
      [Call.Tensorboard [Handle KRun 17];
       Call.start (Handle KTensorboard 18);
       Call.stop (Handle KTensorboard 18);
       Call.wait_for_completion (Handle KRun 17) true].
Proof.
  eexists. eexists.
  split; [symex; reflexivity|]. split; [symex; reflexivity|].
  by repeat split.
Qed.

End Again.

Lemma cloud_data_runs_again_witness :
  exists once twice,
    run CloudData.ipynb (fresh (quiet [] ∅) ∅ ∅) = Ok tt once /\
    run CloudData.ipynb once = Ok tt twice /\
    cwd twice = cwd once /\
    length (calls twice) = 2 * length (script CloudData.ipynb) /\
    stages (drop (length (script CloudData.ipynb)) (calls twice)) =
      stages (script CloudData.ipynb).
Proof.
  exact (cloud_data_runs_again [] ∅ ∅ ∅ (lookup_empty _) (lookup_empty _)).
Defined.

(** ** Cells that need the cells before them *)

(** X11.  Run alone in a new kernel, the cells that use a name bound by an
    earlier cell stop with a [NameError] for the first such name, before
    any SDK call: the control-script cell needs [ws], the wait cells need
    [run], the environment cell of the TensorBoard notebook needs
    [environment_name], its run cell [source_dir], its start cell [run],
    its stop cell [tb]. *)
Theorem dependent_cells_raise_NameError (o : outside)
    (files : gmap string node) (store : gmap string content) :
  Forall (fun '(cell, name) =>
            raised (cell (fresh o files store)) = Some (NameError name) /\
            calls (world_of (cell (fresh o files store))) = [])
    [(CloudData.control_script, "ws");
     (CloudData.wait, "run");
     (TensorBoard.create_environment, "environment_name");
     (TensorBoard.configure_and_run, "source_dir");
     (TensorBoard.start_tensorboard, "run");
     (TensorBoard.stop_tensorboard, "tb");
     (TensorBoard.wait, "run")].
Proof.
  destruct o as [svc a b].
  repeat (apply List.Forall_cons; [symex; by split|]).
  apply List.Forall_nil.
Qed.
